(** * Graph-node construction of [nvidia.dali.ops]

    A shallow embedding of [dali/python/nvidia/dali/ops.py]: the node-id
    counter, [_OperatorInstance], the operator classes produced by
    [python_op_factory] and the [TFRecordReader] wrapper, followed by the
    properties of the builder that are stated about them. *)

From Stdlib Require Import String Ascii List ZArith Lia Bool Arith.
From Stdlib Require Import Decimal DecimalString DecimalNat DecimalZ.
Import ListNotations.

Local Open Scope list_scope.
Local Open Scope string_scope.

(** ** Python values *)

(** Modelled from the spec: [nvidia.dali.tensor.TensorReference] is imported
    by [ops.py] but defined elsewhere.  A handle is the triple
    (name, device, producer); the producer is kept as the node id of the
    producing instance. *)
Record TensorReference : Type := mkTensorReference {
  name : string;
  device : string;
  source : nat
}.

(** The values that reach the builder.  [PyOpaque ty tag] is an object of any
    other class, known only by the name of its type. *)
#[warnings="-register-all"]
Inductive pyvalue : Type :=
| PyNone
| PyBool (b : bool)
| PyInt (z : Z)
| PyStr (s : string)
| PyList (l : list pyvalue)
| PyTensor (t : TensorReference)
| PyOpaque (ty : string) (tag : nat).

(** [type(v).__name__] *)
Definition type_name (v : pyvalue) : string :=
  match v with
  | PyNone => "NoneType"
  | PyBool _ => "bool"
  | PyInt _ => "int"
  | PyStr _ => "str"
  | PyList _ => "list"
  | PyTensor _ => "TensorReference"
  | PyOpaque ty _ => ty
  end.

(** [v == s] for a string literal [s] *)
Definition eq_str (v : pyvalue) (s : string) : bool :=
  match v with
  | PyStr s' => String.eqb s' s
  | _ => false
  end.

(** The exceptions raised by the module.  [BackendError] stands for whatever
    the schema registry raises. *)
Inductive exn : Type :=
| TypeError (msg : string)
| RuntimeError (msg : string)
| ValueError (msg : string)
| UnboundLocalError (var : string)
| IndexError
| BackendError (msg : string).

Definition result (A : Type) : Type := (exn + A)%type.

(** ** [str] on integers and the message layout *)

Definition str (n : nat) : string := NilZero.string_of_uint (Nat.to_uint n).
Definition strZ (z : Z) : string := NilZero.string_of_int (Z.to_int z).

Definition nl : string := String "010"%char EmptyString.

Fixpoint spaces (n : nat) : string :=
  match n with
  | O => EmptyString
  | S k => String " "%char (spaces k)
  end.

(** The three-line message of lines 50-52, 74-76 and 90-92; [ind] is the
    indentation the continuation lines have inside the literal. *)
Definition msg_expected_tensor (ind : nat) (ty : string) : string :=
  "Expected inputs of type" ++ nl ++ spaces ind ++
  "TensorReference. Received" ++ nl ++ spaces ind ++
  "input type " ++ ty.

(** lines 61-63 *)
Definition msg_expected_list (ty : string) : string :=
  "Expected inputs of type list of" ++ nl ++ spaces 32 ++
  "TensorReference. Received" ++ nl ++ spaces 32 ++
  "input type " ++ ty.

(** lines 67-70 *)
Definition msg_same_length (length len_inp : nat) : string :=
  "Expected input lists" ++ nl ++ spaces 36 ++
  "to have the same length" ++ nl ++ spaces 36 ++
  "(" ++ str length ++ "). Received list of" ++ nl ++ spaces 36 ++
  "length " ++ str len_inp.

(** lines 82-83 *)
Definition msg_expected_tensor_or_list (ty : string) : string :=
  "Expected inputs of type TensorReference or list of" ++ nl ++ spaces 20 ++
  "TensorReference. Received input type " ++ ty.

(** lines 185-186 and 259-260 *)
Definition msg_arity (ind : nat) (op_name : string) (lo hi : Z) (n : nat)
  : string :=
  "Operator " ++ op_name ++ " expects [" ++ strZ lo ++ "," ++ nl ++
  spaces ind ++ strZ hi ++ "] inputs, but received " ++ str n.

(** line 161 *)
Definition msg_empty_list : string :=
  "List arguments need to have at least 1 element.".

(** ** Dictionaries

    A Python [dict] keeps insertion order; assigning to a key that is present
    replaces the value in place. *)
Section Dict.
Context {V : Type}.

Fixpoint dict_get (k : string) (d : list (string * V)) : option V :=
  match d with
  | [] => None
  | (k', v) :: rest => if String.eqb k k' then Some v else dict_get k rest
  end.

Fixpoint dict_set (k : string) (v : V) (d : list (string * V))
  : list (string * V) :=
  match d with
  | [] => [(k, v)]
  | (k', v') :: rest =>
      if String.eqb k k' then (k, v) :: rest
      else (k', v') :: dict_set k v rest
  end.

End Dict.

(** ** The backend's [OpSpec] and schema *)

(** Modelled from the spec: [b.OpSpec] belongs to the native backend.  It is
    the record of section 3: [args] is an ordered mapping where the last write
    to a key wins, the other three fields are ordered sequences. *)
Record OpSpec : Type := mkOpSpec {
  kind_name : string;
  args : list (string * pyvalue);
  inputs : list (string * string);
  argument_inputs : list (string * string);
  outputs : list (string * string)
}.

Definition new_OpSpec (kind : string) : OpSpec :=
  mkOpSpec kind [] [] [] [].

Definition AddArg (k : string) (v : pyvalue) (s : OpSpec) : OpSpec :=
  mkOpSpec (kind_name s) (dict_set k v (args s)) (inputs s)
           (argument_inputs s) (outputs s).

Definition AddInput (n d : string) (s : OpSpec) : OpSpec :=
  mkOpSpec (kind_name s) (args s) (inputs s ++ [(n, d)])
           (argument_inputs s) (outputs s).

Definition AddArgumentInput (k n : string) (s : OpSpec) : OpSpec :=
  mkOpSpec (kind_name s) (args s) (inputs s)
           (argument_inputs s ++ [(k, n)]) (outputs s).

Definition AddOutput (n d : string) (s : OpSpec) : OpSpec :=
  mkOpSpec (kind_name s) (args s) (inputs s) (argument_inputs s)
           (outputs s ++ [(n, d)]).

(** Modelled from the spec: the descriptor returned by [b.GetSchema], with
    the three queries [ops.py] makes.  [CalculateOutputs] may raise. *)
Record Schema : Type := mkSchema {
  MinNumInput : Z;
  MaxNumInput : Z;
  CalculateOutputs : OpSpec -> result Z
}.

(** What [_OperatorInstance] reads from its [op] argument: the class name and
    the [spec], [schema] and [device] properties.  Both the generated
    [Operator] classes and [TFRecordReader] provide them. *)
Record Op : Type := mkOp {
  op_type_name : string;
  op_spec : OpSpec;
  op_schema : Schema;
  op_device : pyvalue
}.

(** ** The builder monad

    The only state shared between calls is the class attribute
    [_OpCounter._op_count = count(0)]; it is the next value [next] returns.
    An exception leaves the counter as it was when it was raised. *)
Definition M (A : Type) : Type := nat -> result A * nat.

Definition ret {A} (a : A) : M A := fun c => (inr a, c).
Definition raise {A} (e : exn) : M A := fun c => (inl e, c).
Definition bind {A B} (m : M A) (k : A -> M B) : M B :=
  fun c =>
    match m c with
    | (inl e, c') => (inl e, c')
    | (inr a, c') => k a c'
    end.
Definition lift {A} (r : result A) : M A := fun c => (r, c).

Definition rbind {A B} (r : result A) (k : A -> result B) : result B :=
  match r with
  | inl e => inl e
  | inr a => k a
  end.

Declare Scope builder_scope.
Delimit Scope builder_scope with builder.
Notation "x <- m ;; k" := (bind m (fun x => k))
  (at level 61, m at next level, right associativity) : builder_scope.
Notation "x <-- r ;; k" := (rbind r (fun x => k))
  (at level 61, r at next level, right associativity) : builder_scope.
Local Open Scope builder_scope.

(** ** [_OpCounter] (lines 23-31) *)

Definition OpCounter_init : M nat := fun c => (inr c, S c).

(** ** [_OperatorInstance] (lines 33-136) *)

Record OperatorInstance : Type := mkOperatorInstance {
  inst_id : nat;
  inst_inputs : list pyvalue;
  inst_outputs : list TensorReference;
  inst_op : Op;
  inst_spec : OpSpec;
  inst_name : pyvalue
}.

(** The state of the two loops over the positional inputs: the spec being
    filled and the binding of the local variable [inp], which outlives the
    loops and is [None] as long as no iteration has run. *)
Definition loop_state : Type := (OpSpec * option pyvalue)%type.

(** lines 47-54 *)
Fixpoint add_inputs (inps : list pyvalue) (spec : OpSpec)
         (inp : option pyvalue) : result loop_state :=
  match inps with
  | [] => inr (spec, inp)
  | v :: rest =>
      match v with
      | PyTensor t => add_inputs rest (AddInput (name t) (device t) spec) (Some v)
      | _ => inl (TypeError (msg_expected_tensor 28 (type_name v)))
      end
  end.

(** lines 58-78, the inner loop for one index [i] *)
Fixpoint add_input_set (i length : nat) (inps : list pyvalue) (spec : OpSpec)
         (inp : option pyvalue) : result loop_state :=
  match inps with
  | [] => inr (spec, inp)
  | v :: rest =>
      match v with
      | PyList l =>
          if negb (Nat.eqb (List.length l) length) then
            inl (RuntimeError (msg_same_length length (List.length l)))
          else
            match nth_error l i with
            | None => inl IndexError
            | Some (PyTensor t) =>
                add_input_set i length rest
                  (AddInput (name t) (device t) spec) (Some v)
            | Some x =>
                inl (TypeError (msg_expected_tensor 32 (type_name x)))
            end
      | _ => inl (TypeError (msg_expected_list (type_name v)))
      end
  end.

(** lines 57-78, the outer loop over [range(length)] *)
Fixpoint add_input_sets (idx : list nat) (length : nat) (inps : list pyvalue)
         (spec : OpSpec) (inp : option pyvalue) : result loop_state :=
  match idx with
  | [] => inr (spec, inp)
  | i :: rest =>
      st <-- add_input_set i length inps spec inp ;;
      add_input_sets rest length inps (fst st) (snd st)
  end.

(** lines 45-84 *)
Definition classify_inputs (inps : list pyvalue) (spec : OpSpec)
  : result loop_state :=
  match inps with
  | [] => inr (spec, None)
  | PyTensor _ :: _ => add_inputs inps spec None
  | PyList l0 :: _ =>
      let length := List.length l0 in
      st <-- add_input_sets (seq 0 length) length inps spec None ;;
      inr (AddArg "num_input_sets" (PyInt (Z.of_nat length)) (fst st), snd st)
  | v :: _ => inl (TypeError (msg_expected_tensor_or_list (type_name v)))
  end.

(** lines 86-95.  [kwargs] is a dict, so walking its items is walking its
    keys and reading [kwargs[k]].  The message of line 93 reads the local
    [inp] of the loops above. *)
Fixpoint add_argument_inputs (kw : list (string * pyvalue))
         (inp : option pyvalue) (spec : OpSpec) (ins : list pyvalue)
  : result (OpSpec * list pyvalue) :=
  match kw with
  | [] => inr (spec, ins)
  | (k, v) :: rest =>
      if String.eqb k "name" then add_argument_inputs rest inp spec ins
      else
        match v with
        | PyTensor t =>
            add_argument_inputs rest inp (AddArgumentInput k (name t) spec)
                                (ins ++ [v])
        | _ =>
            match inp with
            | None => inl (UnboundLocalError "inp")
            | Some x => inl (TypeError (msg_expected_tensor 28 (type_name x)))
            end
        end
  end.

(** lines 36-95, everything after the counter has been read *)
Definition OperatorInstance_fill (id : nat) (inps : list pyvalue) (op : Op)
           (kwargs : list (string * pyvalue)) : result OperatorInstance :=
  let spec := op_spec op in
  let nm :=
    match dict_get "name" kwargs with
    | Some v => v
    | None => PyStr ("__" ++ op_type_name op ++ "_" ++ str id)
    end in
  st <-- classify_inputs inps spec ;;
  r <-- add_argument_inputs kwargs (snd st) (fst st) inps ;;
  inr (mkOperatorInstance id (snd r) [] op (fst r) nm).

(** *** Keywords that name a parameter

    [_OperatorInstance(inputs, self, **kwargs)] (lines 192 and 266) gives
    [self], [inputs] and [op] of line 34 by position, and
    [TFRecordReader(path, index_path, features, **kwargs)] gives the
    parameters of line 217 by position.  When a keyword of the call names one
    of them, Python raises [TypeError] while it binds the parameters, before
    the first statement of [__init__]; the keywords that are left are the dict
    [kwargs] of the body. *)
Definition init_parameters : list string := ["self"; "inputs"; "op"].

Definition reader_parameters : list string :=
  ["self"; "path"; "index_path"; "features"].

(** The text is the interpreter's; this is the one of CPython 3. *)
Definition msg_multiple_values (key : string) : string :=
  "__init__() got multiple values for argument '" ++ key ++ "'".

Definition names_parameter (params : list string) (kv : string * pyvalue)
  : bool :=
  existsb (String.eqb (fst kv)) params.

(** the first keyword that names a parameter is the one refused *)
Definition bind_keywords (params : list string)
           (kwargs : list (string * pyvalue)) : result unit :=
  match find (names_parameter params) kwargs with
  | Some kv => inl (TypeError (msg_multiple_values (fst kv)))
  | None => inr tt
  end.

(** no keyword names a parameter *)
Definition accepts_keywords (params : list string)
           (kwargs : list (string * pyvalue)) : bool :=
  negb (existsb (names_parameter params) kwargs).

(** The call [_OperatorInstance(inputs, op, **kwargs)]: the binding of the
    parameters, then [__init__] (lines 34-95), whose first statement takes
    the id. *)
Definition OperatorInstance_init (inps : list pyvalue) (op : Op)
           (kwargs : list (string * pyvalue)) : M OperatorInstance :=
  bound <- lift (bind_keywords init_parameters kwargs) ;;
  id <- OpCounter_init ;;
  lift (OperatorInstance_fill id inps op kwargs).

(** [append_output] (lines 135-136) *)
Definition append_output (t : TensorReference) (self : OperatorInstance)
  : OperatorInstance :=
  mkOperatorInstance (inst_id self) (inst_inputs self)
    (inst_outputs self ++ [t]) (inst_op self) (inst_spec self)
    (inst_name self).

Definition set_spec (s : OpSpec) (self : OperatorInstance)
  : OperatorInstance :=
  mkOperatorInstance (inst_id self) (inst_inputs self) (inst_outputs self)
    (inst_op self) s (inst_name self).

(** the name of line 110 *)
Definition output_name (kind : string) (id i : nat) : string :=
  kind ++ "_id_" ++ str id ++ "_output_" ++ str i.

(** lines 110-113, one iteration *)
Definition mint_output (output_device : string) (self : OperatorInstance)
           (i : nat) : OperatorInstance :=
  let t_name := output_name (op_type_name (inst_op self)) (inst_id self) i in
  let t := mkTensorReference t_name output_device (inst_id self) in
  append_output t (set_spec (AddOutput (name t) (device t) (inst_spec self)) self).

(** [range(n)] *)
Definition range (n : Z) : list nat := seq 0 (Z.to_nat n).

(** [generate_outputs] (lines 100-113) *)
Definition generate_outputs (self : OperatorInstance)
  : result OperatorInstance :=
  let output_device :=
    if eq_str (op_device (inst_op self)) "gpu"
       || eq_str (op_device (inst_op self)) "mixed"
    then "gpu" else "cpu" in
  num_output <-- CalculateOutputs (op_schema (inst_op self)) (inst_spec self) ;;
  inr (fold_left (mint_output output_device) (range num_output) self).

(** ** The classes built by [python_op_factory] (lines 143-200) *)

Section Backend.

(** Modelled from the spec: [b.GetSchema], the lookup of the schema
    registry; it fails for a kind that is not registered. *)
Variable GetSchema : string -> result Schema.

(** lines 158-162 *)
Fixpoint store_arguments (kw : list (string * pyvalue)) (spec : OpSpec)
  : result OpSpec :=
  match kw with
  | [] => inr spec
  | (key, value) :: rest =>
      match value with
      | PyList [] => inl (RuntimeError msg_empty_list)
      | _ => store_arguments rest (AddArg key value spec)
      end
  end.

(** [Operator.__init__] of the class [python_op_factory(name, op_device)]
    returns (lines 145-162) *)
Definition Operator_init (name : string) (op_device : string)
           (kwargs : list (string * pyvalue)) : result Op :=
  let spec := new_OpSpec name in
  schema <-- GetSchema name ;;
  let ds :=
    match dict_get "device" kwargs with
    | Some d => (d, spec)
    | None => (PyStr op_device, AddArg "device" (PyStr op_device) spec)
    end in
  spec' <-- store_arguments kwargs (snd ds) ;;
  inr (mkOp name spec' schema (fst ds)).

(** lines 233-234 *)
Definition store_all (kw : list (string * pyvalue)) (spec : OpSpec)
  : OpSpec :=
  fold_left (fun s kv => AddArg (fst kv) (snd kv) s) kw spec.

Record TFRecordReader : Type := mkTFRecordReader {
  tfr_path : pyvalue;
  tfr_index_path : pyvalue;
  tfr_schema : Schema;
  tfr_spec : OpSpec;
  tfr_device : string;
  tfr_features : list (string * pyvalue)
}.

Definition as_list (v : pyvalue) : pyvalue :=
  match v with
  | PyList _ => v
  | _ => PyList [v]
  end.

(** The call [TFRecordReader(path, index_path, features, **kwargs)]: the
    binding of the parameters, then [__init__] (lines 217-236) *)
Definition TFRecordReader_init (path index_path : pyvalue)
           (features : list (string * pyvalue))
           (kwargs : list (string * pyvalue)) : result TFRecordReader :=
  bound <-- bind_keywords reader_parameters kwargs ;;
  let p := as_list path in
  let ip := as_list index_path in
  schema <-- GetSchema "_TFRecordReader" ;;
  let spec := new_OpSpec "_TFRecordReader" in
  let spec := AddArg "path" p spec in
  let spec := AddArg "index_path" ip spec in
  let spec := store_all kwargs spec in
  inr (mkTFRecordReader p ip schema spec "cpu" features).

End Backend.

(** the test of lines 182-183 and 256-257 *)
Definition arity_violated (schema : Schema) (inps : list pyvalue) : bool :=
  (Z.of_nat (List.length inps) >? MaxNumInput schema)%Z
  || (Z.of_nat (List.length inps) <? MinNumInput schema)%Z.

(** [Operator.__call__] up to its [return] (lines 182-193); the
    construction of line 192 binds the keywords of the call to the
    parameters of [_OperatorInstance.__init__] *)
Definition Operator_call_instance (self : Op) (inps : list pyvalue)
           (kwargs : list (string * pyvalue)) : M OperatorInstance :=
  if arity_violated (op_schema self) inps then
    raise (ValueError (msg_arity 20 (op_type_name self)
                         (MinNumInput (op_schema self))
                         (MaxNumInput (op_schema self))
                         (List.length inps)))
  else
    op_instance <- OperatorInstance_init inps self kwargs ;;
    lift (generate_outputs op_instance).

(** lines 195-197 *)
Definition call_result (op_instance : OperatorInstance) : result pyvalue :=
  if Nat.eqb (List.length (inst_outputs op_instance)) 1 then
    match nth_error (inst_outputs op_instance) 0 with
    | Some t => inr (PyTensor t)
    | None => inl IndexError
    end
  else inr (PyList (map PyTensor (inst_outputs op_instance))).

(** [Operator.__call__] (lines 181-197) *)
Definition Operator_call (self : Op) (inps : list pyvalue)
           (kwargs : list (string * pyvalue)) : M pyvalue :=
  op_instance <- Operator_call_instance self inps kwargs ;;
  lift (call_result op_instance).

(** How a reader looks to [_OperatorInstance]: [type(op).__name__] is the
    class name, the other three are its properties (lines 243-253). *)
Definition reader_op (self : TFRecordReader) : Op :=
  mkOp "TFRecordReader" (tfr_spec self) (tfr_schema self)
       (PyStr (tfr_device self)).

(** The variables the loop of lines 270-277 updates. *)
Record reader_loop : Type := mkReaderLoop {
  rl_instance : OperatorInstance;
  rl_outputs : list (string * TensorReference);
  rl_feature_names : list pyvalue;
  rl_features : list pyvalue
}.

(** lines 271-277, one iteration on [(i, (feature_name, feature))] *)
Definition reader_step (dev : string) (st : reader_loop)
           (e : nat * (string * pyvalue)) : reader_loop :=
  let op_instance := rl_instance st in
  let t_name := output_name "_TFRecordReader" (inst_id op_instance) (fst e) in
  let t := mkTensorReference t_name dev (inst_id op_instance) in
  let op_instance :=
    set_spec (AddOutput (name t) (device t) (inst_spec op_instance))
             op_instance in
  let op_instance := append_output t op_instance in
  mkReaderLoop op_instance
               (dict_set (fst (snd e)) t (rl_outputs st))
               (rl_feature_names st ++ [PyStr (fst (snd e))])
               (rl_features st ++ [snd (snd e)]).

(** [enumerate] *)
Definition enumerate {A} (l : list A) : list (nat * A) :=
  combine (seq 0 (List.length l)) l.

(** [TFRecordReader.__call__] (lines 255-281), together with the instance
    the returned handles refer to; the construction of line 266 binds the
    keywords of the call to the parameters of [_OperatorInstance.__init__] *)
Definition TFRecordReader_call_instance (self : TFRecordReader)
           (inps : list pyvalue) (kwargs : list (string * pyvalue))
  : M (list (string * TensorReference) * OperatorInstance) :=
  if arity_violated (tfr_schema self) inps then
    raise (ValueError (msg_arity 16 "TFRecordReader"
                         (MinNumInput (tfr_schema self))
                         (MaxNumInput (tfr_schema self))
                         (List.length inps)))
  else
    op_instance <- OperatorInstance_init inps (reader_op self) kwargs ;;
    let st := fold_left (reader_step (tfr_device self))
                        (enumerate (tfr_features self))
                        (mkReaderLoop op_instance [] [] []) in
    let op_instance := rl_instance st in
    let spec := AddArg "feature_names" (PyList (rl_feature_names st))
                       (inst_spec op_instance) in
    let spec := AddArg "features" (PyList (rl_features st)) spec in
    ret (rl_outputs st, set_spec spec op_instance).

Definition TFRecordReader_call (self : TFRecordReader)
           (inps : list pyvalue) (kwargs : list (string * pyvalue))
  : M (list (string * TensorReference)) :=
  r <- TFRecordReader_call_instance self inps kwargs ;;
  ret (fst r).

(** ** Examples *)

Module Examples.

Definition h (n : string) : TensorReference := mkTensorReference n "cpu" 0.
Definition a1 := PyTensor (h "a1").
Definition a2 := PyTensor (h "a2").
Definition b1 := PyTensor (h "b1").
Definition b2 := PyTensor (h "b2").

(** a schema taking up to two inputs and giving [n] outputs *)
Definition schema_n (n : Z) : Schema := mkSchema 0 2 (fun _ => inr n).

Definition registry (k : string) : result Schema := inr (schema_n 2).

Definition op_cpu : Op :=
  mkOp "Resize" (AddArg "device" (PyStr "cpu") (new_OpSpec "Resize"))
       (schema_n 2) (PyStr "cpu").

(** the instance [_OperatorInstance((), op_cpu)] is when the counter is 0 *)
Definition inst0 : OperatorInstance :=
  mkOperatorInstance 0 [] [] op_cpu (op_spec op_cpu) (PyStr "__Resize_0").

Definition op_mixed : Op :=
  mkOp "Decode" (new_OpSpec "Decode") (schema_n 1) (PyStr "mixed").

Definition inst_mixed : OperatorInstance :=
  mkOperatorInstance 4 [] [] op_mixed (op_spec op_mixed) (PyStr "__Decode_4").

(** a reader of two features, as [TFRecordReader.__init__] builds it *)
Definition reader0 : TFRecordReader :=
  mkTFRecordReader (PyList [PyStr "train.rec"]) (PyList [PyStr "train.idx"])
    (schema_n 0)
    (AddArg "index_path" (PyList [PyStr "train.idx"])
       (AddArg "path" (PyList [PyStr "train.rec"])
          (new_OpSpec "_TFRecordReader")))
    "cpu"
    [("image", PyOpaque "Feature" 1); ("label", PyOpaque "Feature" 2)].

(** a registry that knows no operator *)
Definition empty_registry (k : string) : result Schema :=
  inl (BackendError "unknown operator").

End Examples.

(** ** Vocabulary of the statements *)

(** [c] is one of the characters of [s] *)
Fixpoint occurs (c : ascii) (s : string) : Prop :=
  match s with
  | EmptyString => False
  | String a r => a = c \/ occurs c r
  end.

(** the handle line 111 builds for index [i] *)
Definition handle (kind : string) (id : nat) (dev : string) (i : nat)
  : TensorReference :=
  mkTensorReference (output_name kind id i) dev id.

(** the device of lines 102-105 *)
Definition output_device_of (d : pyvalue) : string :=
  if eq_str d "gpu" || eq_str d "mixed" then "gpu" else "cpu".

(** What is left alone by minting outputs. *)
Definition same_node (a b : OperatorInstance) : Prop :=
  inst_id b = inst_id a /\ inst_op b = inst_op a /\
  inst_inputs b = inst_inputs a /\ inst_name b = inst_name a /\
  kind_name (inst_spec b) = kind_name (inst_spec a) /\
  args (inst_spec b) = args (inst_spec a) /\
  inputs (inst_spec b) = inputs (inst_spec a) /\
  argument_inputs (inst_spec b) = argument_inputs (inst_spec a).

(** A build session, as far as the counter sees it: the constructions of
    [_OperatorInstance] made one after the other, each with its outcome.  A
    construction that raises is followed by the next one. *)
Definition request : Type :=
  (list pyvalue * Op * list (string * pyvalue))%type.

Fixpoint session (reqs : list request) (c : nat)
  : list (result OperatorInstance) * nat :=
  match reqs with
  | [] => ([], c)
  | (inps, op, kw) :: rest =>
      let r := OperatorInstance_init inps op kw c in
      let rs := session rest (snd r) in
      (fst r :: fst rs, snd rs)
  end.

(** the keys of a [dict] are pairwise different *)
Definition is_dict {V : Type} (d : list (string * V)) : Prop :=
  NoDup (map fst d).

(** [v] is a [TensorReference] *)
Definition is_tensor (v : pyvalue) : bool :=
  match v with
  | PyTensor _ => true
  | _ => false
  end.

(** the keyword arguments of a call that lines 86-95 treat: all but [name] *)
Definition argument_items (kw : list (string * pyvalue))
  : list (string * pyvalue) :=
  filter (fun kv => negb (String.eqb (fst kv) "name")) kw.

(** [v.name] of a handle *)
Definition tensor_name (v : pyvalue) : string :=
  match v with
  | PyTensor t => name t
  | _ => EmptyString
  end.

(** [k] run after [m], whatever the outcome of [m] was: what a caller sees
    who goes on building after a call that may have raised. *)
Definition after {A B : Type} (m : M A) (k : M B) : M B :=
  fun c => k (snd (m c)).

(** The calls a pipeline definition makes: an operator or a reader applied
    to inputs and keyword arguments.  [run_call] is the call up to its
    [return], giving the instance behind the handles returned. *)
Inductive call : Type :=
| CallOperator (self : Op) (inps : list pyvalue)
               (kwargs : list (string * pyvalue))
| CallReader (self : TFRecordReader) (inps : list pyvalue)
             (kwargs : list (string * pyvalue)).

Definition run_call (cl : call) : M OperatorInstance :=
  match cl with
  | CallOperator self inps kwargs => Operator_call_instance self inps kwargs
  | CallReader self inps kwargs =>
      r <- TFRecordReader_call_instance self inps kwargs ;; ret (snd r)
  end.

Fixpoint call_session (calls : list call) (c : nat)
  : list (result OperatorInstance) * nat :=
  match calls with
  | [] => ([], c)
  | cl :: rest =>
      let r := run_call cl c in
      let rs := call_session rest (snd r) in
      (fst r :: fst rs, snd rs)
  end.

(** the handles of the instances that were built *)
Definition handles_of (rs : list (result OperatorInstance))
  : list TensorReference :=
  flat_map (fun r => match r with
                     | inr inst => inst_outputs inst
                     | inl _ => []
                     end) rs.

(** [v] is a list of handles; its length; the (name, device) of its
    [i]-th handle *)
Definition is_handle_list (v : pyvalue) : bool :=
  match v with
  | PyList l => forallb is_tensor l
  | _ => false
  end.

Definition list_length (v : pyvalue) : nat :=
  match v with
  | PyList l => List.length l
  | _ => 0
  end.

Definition pick (i : nat) (v : pyvalue) : string * string :=
  match v with
  | PyList l =>
      match nth_error l i with
      | Some (PyTensor t) => (name t, device t)
      | _ => (EmptyString, EmptyString)
      end
  | _ => (EmptyString, EmptyString)
  end.

(** [v.device] of a handle *)
Definition tensor_device (v : pyvalue) : string :=
  match v with
  | PyTensor t => device t
  | _ => EmptyString
  end.

(** [v] is a [list] *)
Definition is_list (v : pyvalue) : bool :=
  match v with
  | PyList _ => true
  | _ => false
  end.

(** the [i]-th element of the list [v] is a handle *)
Definition handle_at (i : nat) (v : pyvalue) : bool :=
  match v with
  | PyList l =>
      match nth_error l i with
      | Some x => is_tensor x
      | None => false
      end
  | _ => false
  end.

(** the call gets past the test of lines 182-183 or 256-257 *)
Definition passes_arity (cl : call) : bool :=
  match cl with
  | CallOperator self inps _ => negb (arity_violated (op_schema self) inps)
  | CallReader self inps _ => negb (arity_violated (tfr_schema self) inps)
  end.

(** [__init__] is entered: the keywords of the construction name none of
    its parameters; for a call, the arity test is passed first *)
Definition takes_id (r : request) : bool :=
  accepts_keywords init_parameters (snd r).

Definition enters_init (cl : call) : bool :=
  match cl with
  | CallOperator _ _ kwargs | CallReader _ _ kwargs =>
      passes_arity cl && accepts_keywords init_parameters kwargs
  end.

(** the spec of the operator or reader that is called *)
Definition call_spec (cl : call) : OpSpec :=
  match cl with
  | CallOperator self _ _ => op_spec self
  | CallReader self _ _ => tfr_spec self
  end.

(** * Properties *)

(** ** Strings and decimal rendering *)

Section Strings.

Lemma append_assoc (a b c : string) : (a ++ b) ++ c = a ++ (b ++ c).
Proof.
  induction a as [| x a IH]; simpl; [reflexivity | now rewrite IH].
Qed.

Lemma append_inv_tail (t a b : string) : a ++ t = b ++ t -> a = b.
Proof.
  intros H.
  assert (L : list_ascii_of_string a = list_ascii_of_string b).
  { apply (app_inv_tail (list_ascii_of_string t)).
    assert (E : forall x y, list_ascii_of_string (x ++ y)
                = (list_ascii_of_string x ++ list_ascii_of_string y)%list).
    { intros x y. induction x as [| c x IH]; simpl; [reflexivity | now rewrite IH]. }
    rewrite <- !E. now rewrite H. }
  rewrite <- (string_of_list_ascii_of_string a),
          <- (string_of_list_ascii_of_string b).
  now rewrite L.
Qed.

Lemma append_inv_head (h a b : string) : h ++ a = h ++ b -> a = b.
Proof.
  induction h as [| x h IH]; simpl; [auto |].
  intros [= H]. auto.
Qed.

Lemma occurs_middle (c : ascii) (a b : string) : occurs c (a ++ String c b).
Proof.
  induction a as [| x a IH]; simpl; [now left | now right].
Qed.

(** A separator that does not occur after it splits a string in one way
    only. *)
Lemma split_at_last (c : ascii) (a b d1 d2 : string) :
  ~ occurs c d1 -> ~ occurs c d2 ->
  a ++ String c d1 = b ++ String c d2 -> a = b /\ d1 = d2.
Proof.
  intros N1 N2. revert b.
  induction a as [| x a IH]; intros [| y b]; simpl; intros H.
  - injection H as ->. now split.
  - injection H as _ H. exfalso. apply N1. rewrite H. apply occurs_middle.
  - injection H as _ H. exfalso. apply N2. rewrite <- H. apply occurs_middle.
  - injection H as -> H. destruct (IH _ H) as [-> ->]. now split.
Qed.

Lemma digits_no_underscore (d : uint) :
  ~ occurs "_"%char (NilEmpty.string_of_uint d).
Proof.
  induction d; simpl; intros H; try destruct H as [H | H];
    try discriminate; auto.
Qed.

Lemma to_uint_not_nil (n : nat) : Nat.to_uint n <> Nil.
Proof.
  intros H. pose proof (Unsigned.of_to n) as E. rewrite H in E.
  simpl in E. subst n. discriminate H.
Qed.

Lemma str_no_underscore (n : nat) : ~ occurs "_"%char (str n).
Proof.
  unfold str, NilZero.string_of_uint.
  pose proof (digits_no_underscore (Nat.to_uint n)) as D.
  destruct (Nat.to_uint n) eqn:E; try exact D.
  now apply to_uint_not_nil in E.
Qed.

Lemma str_inj (n m : nat) : str n = str m -> n = m.
Proof.
  unfold str. intros H.
  apply Unsigned.to_uint_inj.
  pose proof (NilZero.usu _ (to_uint_not_nil n)) as A.
  pose proof (NilZero.usu _ (to_uint_not_nil m)) as B.
  rewrite H in A. rewrite A in B. now injection B.
Qed.

(** The name of an output determines the kind, the node id and the index
    it was built from. *)
Lemma output_name_inj (k1 k2 : string) (id1 id2 i1 i2 : nat) :
  output_name k1 id1 i1 = output_name k2 id2 i2 ->
  k1 = k2 /\ id1 = id2 /\ i1 = i2.
Proof.
  assert (R : forall k id i,
             output_name k id i
             = (((k ++ "_id") ++ String "_"%char (str id)) ++ "_output")
                 ++ String "_"%char (str i)).
  { intros k id i. unfold output_name. rewrite ?append_assoc. simpl.
    rewrite ?append_assoc. reflexivity. }
  rewrite !R. intros H.
  apply (split_at_last "_"%char _ _ (str i1) (str i2)) in H;
    try apply str_no_underscore.
  destruct H as [H Hi]. apply append_inv_tail in H.
  apply (split_at_last "_"%char (k1 ++ "_id") (k2 ++ "_id")
                       (str id1) (str id2)) in H;
    try apply str_no_underscore.
  destruct H as [H Hid]. apply append_inv_tail in H.
  repeat split; auto using str_inj.
Qed.

End Strings.

(** ** Output generation *)

Section Outputs.

Lemma same_node_refl (a : OperatorInstance) : same_node a a.
Proof. unfold same_node; intuition. Qed.

Lemma same_node_trans (a b c : OperatorInstance) :
  same_node a b -> same_node b c -> same_node a c.
Proof. unfold same_node; intuition congruence. Qed.

Lemma mint_output_same_node (dev : string) (self : OperatorInstance)
      (i : nat) : same_node self (mint_output dev self i).
Proof. unfold same_node, mint_output; simpl; intuition. Qed.

Lemma fold_mint (dev : string) (idx : list nat) :
  forall self : OperatorInstance,
    let g := fold_left (mint_output dev) idx self in
    let kind := op_type_name (inst_op self) in
    same_node self g /\
    inst_outputs g
    = (inst_outputs self ++ map (handle kind (inst_id self) dev) idx)%list /\
    outputs (inst_spec g)
    = (outputs (inst_spec self)
         ++ map (fun i => (output_name kind (inst_id self) i, dev)) idx)%list.
Proof.
  induction idx as [| i idx IH]; intros self; simpl.
  - rewrite !app_nil_r. auto using same_node_refl.
  - destruct (IH (mint_output dev self i)) as (N & O & S).
    split; [| split].
    + eapply same_node_trans; [apply mint_output_same_node | exact N].
    + rewrite O. simpl. now rewrite <- app_assoc.
    + rewrite S. simpl. now rewrite <- app_assoc.
Qed.

Lemma generate_outputs_inv (self g : OperatorInstance) :
  generate_outputs self = inr g ->
  exists n,
    CalculateOutputs (op_schema (inst_op self)) (inst_spec self) = inr n /\
    g = fold_left (mint_output (output_device_of (op_device (inst_op self))))
                  (range n) self.
Proof.
  unfold generate_outputs, rbind.
  destruct (CalculateOutputs _ _) as [e | n]; [discriminate |].
  intros H. injection H as <-. exists n. split; reflexivity.
Qed.

Lemma range_length (n : Z) : (0 <= n)%Z -> Z.of_nat (List.length (range n)) = n.
Proof. intros H. unfold range. rewrite length_seq. lia. Qed.

End Outputs.

(** ** The node-id counter *)

Section Counter.

Lemma bind_keywords_accepts (params : list string)
      (kw : list (string * pyvalue)) :
  accepts_keywords params kw = true -> bind_keywords params kw = inr tt.
Proof.
  unfold accepts_keywords, bind_keywords. intros A.
  apply negb_true_iff in A.
  destruct (find (names_parameter params) kw) as [kv |] eqn:F;
    [| reflexivity].
  apply find_some in F. destruct F as [I N].
  assert (X : existsb (names_parameter params) kw = true)
    by (apply existsb_exists; eauto).
  congruence.
Qed.

Lemma bind_keywords_refuses (params : list string)
      (kw : list (string * pyvalue)) :
  accepts_keywords params kw = false ->
  exists k,
    In k params /\ In k (map fst kw) /\
    bind_keywords params kw = inl (TypeError (msg_multiple_values k)).
Proof.
  unfold accepts_keywords, bind_keywords. intros A.
  apply negb_false_iff in A.
  destruct (find (names_parameter params) kw) as [kv |] eqn:F.
  - apply find_some in F. destruct F as [I N].
    unfold names_parameter in N. apply existsb_exists in N.
    destruct N as (x & Ix & E). apply String.eqb_eq in E.
    exists (fst kv). split; [now rewrite E |].
    split; [now apply in_map | reflexivity].
  - apply existsb_exists in A. destruct A as (kv & I & N).
    now rewrite (find_none _ _ F kv I) in N.
Qed.

Lemma accepts_keywords_spec (params : list string)
      (kw : list (string * pyvalue)) :
  accepts_keywords params kw = true ->
  forall k, In k params -> ~ In k (map fst kw).
Proof.
  unfold accepts_keywords. intros A k P I.
  apply negb_true_iff in A.
  apply in_map_iff in I. destruct I as (kv & <- & I).
  assert (X : existsb (names_parameter params) kw = true).
  { apply existsb_exists. exists kv. split; [exact I |].
    unfold names_parameter. apply existsb_exists.
    exists (fst kv). split; [exact P | apply String.eqb_refl]. }
  congruence.
Qed.

(** Keywords that name no parameter: [__init__] runs and takes the id. *)
Lemma OperatorInstance_init_bound (inps : list pyvalue) (op : Op)
      (kw : list (string * pyvalue)) (c : nat) :
  accepts_keywords init_parameters kw = true ->
  OperatorInstance_init inps op kw c
  = (OperatorInstance_fill c inps op kw, S c).
Proof.
  intros A. unfold OperatorInstance_init, bind, lift.
  now rewrite (bind_keywords_accepts _ _ A).
Qed.

(** A keyword that names a parameter: [TypeError], and no id is taken. *)
Lemma OperatorInstance_init_refused (inps : list pyvalue) (op : Op)
      (kw : list (string * pyvalue)) (c : nat) :
  accepts_keywords init_parameters kw = false ->
  exists m, OperatorInstance_init inps op kw c = (inl (TypeError m), c).
Proof.
  intros A. destruct (bind_keywords_refuses _ _ A) as (k & _ & _ & E).
  unfold OperatorInstance_init, bind, lift. rewrite E. eauto.
Qed.

Lemma OperatorInstance_init_inv (inps : list pyvalue) (op : Op)
      (kw : list (string * pyvalue)) (c c' : nat) (inst : OperatorInstance) :
  OperatorInstance_init inps op kw c = (inr inst, c') ->
  accepts_keywords init_parameters kw = true /\ c' = S c /\
  OperatorInstance_fill c inps op kw = inr inst.
Proof.
  destruct (accepts_keywords init_parameters kw) eqn:A.
  - rewrite (OperatorInstance_init_bound _ _ _ _ A). intros [= F <-]. auto.
  - destruct (OperatorInstance_init_refused inps op kw c A) as [m E].
    rewrite E. discriminate.
Qed.

Lemma OperatorInstance_init_counter (inps : list pyvalue) (op : Op)
      (kw : list (string * pyvalue)) (c : nat) :
  snd (OperatorInstance_init inps op kw c)
  = if accepts_keywords init_parameters kw then S c else c.
Proof.
  destruct (accepts_keywords init_parameters kw) eqn:A.
  - now rewrite (OperatorInstance_init_bound _ _ _ _ A).
  - destruct (OperatorInstance_init_refused inps op kw c A) as [m E].
    now rewrite E.
Qed.

Lemma OperatorInstance_fill_fresh (id : nat) (inps : list pyvalue) (op : Op)
      (kw : list (string * pyvalue)) (inst : OperatorInstance) :
  OperatorInstance_fill id inps op kw = inr inst ->
  inst_id inst = id /\ inst_outputs inst = [] /\ inst_op inst = op.
Proof.
  unfold OperatorInstance_fill, rbind.
  destruct (classify_inputs _ _) as [e | st]; [discriminate |].
  destruct (add_argument_inputs _ _ _ _) as [e | r]; [discriminate |].
  intros H. injection H as <-. simpl. auto.
Qed.

Lemma session_counter_le (reqs : list request) :
  forall c : nat, c <= snd (session reqs c).
Proof.
  induction reqs as [| [[inps op] kw] reqs IH]; intros c; simpl; [lia |].
  specialize (IH (snd (OperatorInstance_init inps op kw c))).
  rewrite OperatorInstance_init_counter in *.
  destruct (accepts_keywords init_parameters kw); lia.
Qed.

(** The instances of a session have ids from the counter's starting value
    on, and no outputs. *)
Lemma session_ids (reqs : list request) :
  forall (c p : nat) (a : OperatorInstance),
    nth_error (fst (session reqs c)) p = Some (inr a) ->
    c <= inst_id a /\ inst_outputs a = [].
Proof.
  induction reqs as [| [[inps op] kw] reqs IH]; intros c p a; simpl.
  - destruct p; discriminate.
  - destruct p as [| p]; simpl.
    + intros H. injection H as H.
      destruct (OperatorInstance_init inps op kw c) as [r c1] eqn:R.
      simpl in H. subst r. apply OperatorInstance_init_inv in R.
      destruct R as (_ & _ & F).
      apply OperatorInstance_fill_fresh in F. destruct F as (-> & E & _).
      auto.
    + intros H. apply IH in H. destruct H as [L E]. split; [| exact E].
      pose proof (OperatorInstance_init_counter inps op kw c) as K.
      destruct (accepts_keywords init_parameters kw); lia.
Qed.

(** A later construction of a session gets a greater id. *)
Lemma session_ids_increase (reqs : list request) :
  forall (c p q : nat) (a b : OperatorInstance),
    nth_error (fst (session reqs c)) p = Some (inr a) ->
    nth_error (fst (session reqs c)) q = Some (inr b) ->
    p < q -> inst_id a < inst_id b.
Proof.
  induction reqs as [| [[inps op] kw] reqs IH]; intros c p q a b; simpl.
  - destruct p; discriminate.
  - destruct p as [| p], q as [| q]; simpl; try lia.
    + intros H H' _. injection H as H.
      destruct (OperatorInstance_init inps op kw c) as [r c1] eqn:R.
      simpl in *. subst r. apply OperatorInstance_init_inv in R.
      destruct R as (_ & -> & F).
      apply OperatorInstance_fill_fresh in F. destruct F as (-> & _).
      apply session_ids in H'. lia.
    + intros H H' L. apply (IH _ _ _ _ _ H H'). lia.
Qed.

End Counter.

(** Case analysis on the binding of the keywords of a construction, in the
    goal or in a hypothesis. *)
Ltac init_in_goal i o kw c A :=
  destruct (accepts_keywords init_parameters kw) eqn:A;
  [ rewrite (OperatorInstance_init_bound i o kw c A)
  | let m := fresh "m" in
    let E := fresh "E" in
    destruct (OperatorInstance_init_refused i o kw c A) as [m E];
    rewrite E ].

Ltac init_in_hyp i o kw c A R :=
  destruct (accepts_keywords init_parameters kw) eqn:A;
  [ rewrite (OperatorInstance_init_bound i o kw c A) in R
  | let m := fresh "m" in
    let E := fresh "E" in
    destruct (OperatorInstance_init_refused i o kw c A) as [m E];
    rewrite E in R; try discriminate R ].

(** ** Names of the minted handles *)

Section Names.

Lemma generated_outputs (a ga : OperatorInstance) :
  generate_outputs a = inr ga ->
  inst_outputs a = [] ->
  exists n dev,
    inst_outputs ga
    = map (handle (op_type_name (inst_op a)) (inst_id a) dev) (range n).
Proof.
  intros G E. apply generate_outputs_inv in G. destruct G as (n & _ & ->).
  exists n, (output_device_of (op_device (inst_op a))).
  destruct (fold_mint (output_device_of (op_device (inst_op a))) (range n) a)
    as (_ & O & _).
  rewrite O, E. reflexivity.
Qed.

Lemma handle_names_NoDup (kind dev : string) (id : nat) (idx : list nat) :
  NoDup idx -> NoDup (map name (map (handle kind id dev) idx)).
Proof.
  intros N. rewrite map_map. simpl.
  apply NoDup_map_NoDup_ForallPairs; [| exact N].
  intros i j _ _ H. now apply output_name_inj in H.
Qed.

(** Two instances built in different places of a session mint handles with
    disjoint sets of names. *)
Lemma constructed_output_names_disjoint
        (reqs : list request) (c p q : nat) (a b ga gb : OperatorInstance) :
  p <> q ->
  nth_error (fst (session reqs c)) p = Some (inr a) ->
  nth_error (fst (session reqs c)) q = Some (inr b) ->
  generate_outputs a = inr ga ->
  generate_outputs b = inr gb ->
  inst_id a <> inst_id b /\
  (forall x y, In x (inst_outputs ga) -> In y (inst_outputs gb) ->
               name x <> name y) /\
  NoDup (map name (inst_outputs ga)) /\
  NoDup (map name (inst_outputs gb)).
Proof.
  intros D A B GA GB.
  assert (Hid : inst_id a <> inst_id b).
  { destruct (Nat.lt_trichotomy p q) as [L | [L | L]]; [| contradiction |].
    - pose proof (session_ids_increase _ _ _ _ _ _ A B L). lia.
    - pose proof (session_ids_increase _ _ _ _ _ _ B A L). lia. }
  apply session_ids in A, B. destruct A as [Ia Ea], B as [Ib Eb].
  destruct (generated_outputs _ _ GA Ea) as (na & da & Oa).
  destruct (generated_outputs _ _ GB Eb) as (nb & db & Ob).
  repeat split.
  - exact Hid.
  - intros x y Hx Hy E. rewrite Oa in Hx. rewrite Ob in Hy.
    apply in_map_iff in Hx, Hy.
    destruct Hx as (i & <- & _), Hy as (j & <- & _).
    simpl in E. apply output_name_inj in E. tauto.
  - rewrite Oa. apply handle_names_NoDup, seq_NoDup.
  - rewrite Ob. apply handle_names_NoDup, seq_NoDup.
Qed.

Lemma enumerate_indices {A : Type} (l : list A) :
  forall start, map fst (combine (seq start (List.length l)) l)
                = seq start (List.length l).
Proof.
  induction l as [| x l IH]; intros start; simpl; [reflexivity |].
  now rewrite IH.
Qed.

Lemma fold_reader (dev : string) (es : list (nat * (string * pyvalue))) :
  forall st : reader_loop,
    let st' := fold_left (reader_step dev) es st in
    inst_id (rl_instance st') = inst_id (rl_instance st) /\
    inst_outputs (rl_instance st')
    = (inst_outputs (rl_instance st)
         ++ map (handle "_TFRecordReader" (inst_id (rl_instance st)) dev)
                (map fst es))%list.
Proof.
  induction es as [| e es IH]; intros st; simpl.
  - now rewrite app_nil_r.
  - destruct (IH (reader_step dev st e)) as [I O].
    rewrite I, O. simpl. split; [reflexivity |].
    now rewrite <- app_assoc.
Qed.

(** A call either builds nothing, or builds an instance whose handles are
    all named after the value it found in the counter; the counter never
    goes back, and goes forward when an instance was built. *)
Lemma run_call_handles (cl : call) (c : nat) :
  c <= snd (run_call cl c) /\
  forall inst,
    fst (run_call cl c) = inr inst ->
    snd (run_call cl c) = S c /\
    exists kind dev idx,
      NoDup idx /\ inst_outputs inst = map (handle kind c dev) idx.
Proof.
  destruct cl as [self inps kw | self inps kw]; simpl.
  - unfold Operator_call_instance.
    destruct (arity_violated _ _); simpl; [split; [lia | discriminate] |].
    unfold bind.
    init_in_goal inps self kw c A; [| simpl; split; [lia | discriminate]].
    destruct (OperatorInstance_fill c inps self kw) as [e | a] eqn:F; simpl;
      [split; [lia | discriminate] |].
    split; [lia |]. intros inst G. split; [reflexivity |].
    apply OperatorInstance_fill_fresh in F. destruct F as (Hid & Hout & _).
    destruct (generated_outputs _ _ G Hout) as (n & dev & O).
    exists (op_type_name (inst_op a)), dev, (range n).
    split; [apply seq_NoDup |]. now rewrite O, Hid.
  - unfold TFRecordReader_call_instance.
    destruct (arity_violated _ _); simpl; [split; [lia | discriminate] |].
    unfold bind.
    init_in_goal inps (reader_op self) kw c A;
      [| simpl; split; [lia | discriminate]].
    destruct (OperatorInstance_fill c inps (reader_op self) kw)
      as [e | a] eqn:F; simpl; [split; [lia | discriminate] |].
    split; [lia |]. intros inst [= <-]. split; [reflexivity |].
    apply OperatorInstance_fill_fresh in F. destruct F as (Hid & Hout & _).
    destruct (fold_reader (tfr_device self) (enumerate (tfr_features self))
                (mkReaderLoop a [] [] [])) as [_ O].
    simpl in O. rewrite Hout, Hid in O. simpl in O.
    exists "_TFRecordReader", (tfr_device self),
           (seq 0 (List.length (tfr_features self))).
    split; [apply seq_NoDup |].
    simpl. rewrite O. unfold enumerate. now rewrite enumerate_indices.
Qed.

Lemma call_session_handles (calls : list call) :
  forall (c : nat) (h : TensorReference),
    In h (handles_of (fst (call_session calls c))) ->
    exists kind id dev i, h = handle kind id dev i /\ c <= id.
Proof.
  induction calls as [| cl calls IH]; intros c h; simpl; [tauto |].
  destruct (run_call_handles cl c) as [Mono Built].
  rewrite in_app_iff. intros [H | H].
  - destruct (fst (run_call cl c)) as [e | inst]; [destruct H |].
    destruct (Built inst eq_refl) as (_ & kind & dev & idx & _ & O).
    rewrite O in H. apply in_map_iff in H. destruct H as (i & <- & _).
    exists kind, c, dev, i. auto.
  - apply IH in H. destruct H as (kind & id & dev & i & E & L).
    exists kind, id, dev, i. split; [exact E | lia].
Qed.

(** The handles of all the calls of a session have pairwise different
    names. *)
Lemma call_session_names_NoDup (calls : list call) :
  forall c : nat, NoDup (map name (handles_of (fst (call_session calls c)))).
Proof.
  induction calls as [| cl calls IH]; intros c; simpl; [constructor |].
  destruct (run_call_handles cl c) as [Mono Built].
  rewrite map_app.
  destruct (fst (run_call cl c)) as [e | inst]; simpl; [apply IH |].
  destruct (Built inst eq_refl) as (Next & kind & dev & idx & N & O).
  apply NoDup_app.
  - rewrite O. now apply handle_names_NoDup.
  - apply IH.
  - intros nm H1 H2. rewrite O in H1.
    apply in_map_iff in H1, H2.
    destruct H1 as (x & <- & Hx), H2 as (y & E & Hy).
    apply in_map_iff in Hx. destruct Hx as (i & <- & _).
    apply call_session_handles in Hy.
    destruct Hy as (k2 & id2 & d2 & j & -> & L).
    simpl in E. apply output_name_inj in E. rewrite Next in L. lia.
Qed.

(** C1: two instances built in one session, in different places of it, get
    different ids from the counter and mint handles with disjoint sets of
    names, whatever their kinds and arguments are, because the name carries
    the id; the names one call of [generate_outputs] mints are pairwise
    different; and so the handles of all the calls of a session, of
    operators and of readers, have pairwise different names. *)
Theorem session_output_names_disjoint :
  (forall (reqs : list request) (c p q : nat)
          (a b ga gb : OperatorInstance),
      p <> q ->
      nth_error (fst (session reqs c)) p = Some (inr a) ->
      nth_error (fst (session reqs c)) q = Some (inr b) ->
      generate_outputs a = inr ga ->
      generate_outputs b = inr gb ->
      inst_id a <> inst_id b /\
      (forall x y, In x (inst_outputs ga) -> In y (inst_outputs gb) ->
                   name x <> name y) /\
      NoDup (map name (inst_outputs ga)) /\
      NoDup (map name (inst_outputs gb))) /\
  (forall (calls : list call) (c : nat),
      NoDup (map name (handles_of (fst (call_session calls c))))).
Proof.
  split.
  - apply constructed_output_names_disjoint.
  - intros calls c. apply call_session_names_NoDup.
Qed.

End Names.

(** ** [generate_outputs] *)

Section GenerateOutputs.

Lemma eq_str_true (d : pyvalue) (s : string) :
  eq_str d s = true <-> d = PyStr s.
Proof.
  destruct d; simpl; try (split; [discriminate | intros H; discriminate H]).
  rewrite String.eqb_eq. split; [now intros -> | now intros [= ->]].
Qed.

Lemma output_device_of_gpu (d : pyvalue) :
  d = PyStr "gpu" \/ d = PyStr "mixed" -> output_device_of d = "gpu".
Proof.
  unfold output_device_of. intros [-> | ->]; reflexivity.
Qed.

Lemma output_device_of_cpu (d : pyvalue) :
  d <> PyStr "gpu" -> d <> PyStr "mixed" -> output_device_of d = "cpu".
Proof.
  unfold output_device_of. intros G X.
  destruct (eq_str d "gpu") eqn:E1; [now apply eq_str_true in E1 |].
  destruct (eq_str d "mixed") eqn:E2; [now apply eq_str_true in E2 |].
  reflexivity.
Qed.

Lemma generate_outputs_run (self : OperatorInstance) (n : Z) :
  CalculateOutputs (op_schema (inst_op self)) (inst_spec self) = inr n ->
  generate_outputs self
  = inr (fold_left (mint_output (output_device_of (op_device (inst_op self))))
                   (range n) self).
Proof.
  intros H. unfold generate_outputs. rewrite H. reflexivity.
Qed.

(** C3: when the descriptor yields the count [n], [generate_outputs] returns
    normally and appends [n] handles, the [i]-th one named
    [<kind>_id_<id>_output_<i>], to the outputs of the instance and, as
    (name, device) pairs, to the outputs of its spec; their device is "gpu"
    if the operator's device is "gpu" or "mixed" and "cpu" otherwise. *)
Theorem generate_outputs_appends (self : OperatorInstance) (n : Z) :
  CalculateOutputs (op_schema (inst_op self)) (inst_spec self) = inr n ->
  (0 <= n)%Z ->
  let kind := op_type_name (inst_op self) in
  let id := inst_id self in
  let d := op_device (inst_op self) in
  exists (dev : string) (g : OperatorInstance)
         (minted : list TensorReference),
    generate_outputs self = inr g /\
    inst_outputs g = (inst_outputs self ++ minted)%list /\
    outputs (inst_spec g)
    = (outputs (inst_spec self)
         ++ map (fun t => (name t, device t)) minted)%list /\
    Z.of_nat (List.length minted) = n /\
    (forall i, (Z.of_nat i < n)%Z ->
       nth_error minted i
       = Some (mkTensorReference
                 (kind ++ "_id_" ++ str id ++ "_output_" ++ str i) dev id)) /\
    (d = PyStr "gpu" \/ d = PyStr "mixed" -> dev = "gpu") /\
    (d <> PyStr "gpu" -> d <> PyStr "mixed" -> dev = "cpu") /\
    same_node self g.
Proof.
  intros C N kind id d.
  set (dev := output_device_of d).
  exists dev, (fold_left (mint_output dev) (range n) self),
         (map (handle kind id dev) (range n)).
  destruct (fold_mint dev (range n) self) as (SN & O & S).
  repeat split; try apply SN.
  - now apply generate_outputs_run.
  - exact O.
  - rewrite S, map_map. reflexivity.
  - rewrite length_map. now apply range_length.
  - intros i Hi. rewrite nth_error_map. unfold range.
    rewrite nth_error_seq.
    destruct (Nat.ltb_spec i (Z.to_nat n)) as [_ | L]; [reflexivity | lia].
  - apply output_device_of_gpu.
  - apply output_device_of_cpu.
Qed.

(** C6, as the code has it: [generate_outputs] keeps no flag.  A second call
    asks the descriptor for the count again; when that yields [n2] the call
    returns normally and appends [n2] more handles, named as the first call
    names them, and the call raises only what the descriptor raises. *)
Theorem generate_outputs_again (self g1 : OperatorInstance) :
  generate_outputs self = inr g1 ->
  let kind := op_type_name (inst_op self) in
  let id := inst_id self in
  let dev := output_device_of (op_device (inst_op self)) in
  let count := CalculateOutputs (op_schema (inst_op self)) (inst_spec g1) in
  (forall n2, count = inr n2 ->
     exists g2,
       generate_outputs g1 = inr g2 /\
       inst_outputs g2
       = (inst_outputs g1 ++ map (handle kind id dev) (range n2))%list /\
       outputs (inst_spec g2)
       = (outputs (inst_spec g1)
            ++ map (fun i => (output_name kind id i, dev)) (range n2))%list) /\
  (forall e, generate_outputs g1 = inl e <-> count = inl e).
Proof.
  intros G kind id dev count.
  apply generate_outputs_inv in G. destruct G as (n & _ & G).
  destruct (fold_mint dev (range n) self) as ((Hid & Hop & _) & _ & _).
  fold dev in G. rewrite <- G in Hid, Hop.
  split.
  - intros n2 C. subst count. rewrite <- Hop in C.
    eexists. split; [apply generate_outputs_run; exact C |].
    rewrite Hop.
    destruct (fold_mint dev (range n2) g1) as (_ & O & S).
    rewrite Hop, Hid in O, S. fold dev. split; assumption.
  - intros e. subst count. unfold generate_outputs, rbind.
    rewrite Hop. destruct (CalculateOutputs _ _); split; congruence.
Qed.

End GenerateOutputs.

(** ** Dictionaries *)

Section DictFacts.

Context {V : Type}.

Lemma dict_get_set_same (k : string) (v : V) (d : list (string * V)) :
  dict_get k (dict_set k v d) = Some v.
Proof.
  induction d as [| [k' v'] d IH]; simpl.
  - now rewrite String.eqb_refl.
  - destruct (String.eqb k k') eqn:E; simpl.
    + now rewrite String.eqb_refl.
    + now rewrite E.
Qed.

Lemma dict_get_set_other (k k' : string) (v : V) (d : list (string * V)) :
  k <> k' -> dict_get k (dict_set k' v d) = dict_get k d.
Proof.
  intros N. induction d as [| [k2 v2] d IH]; simpl.
  - apply String.eqb_neq in N. now rewrite N.
  - destruct (String.eqb k' k2) eqn:E; simpl.
    + apply String.eqb_eq in E. subst k2.
      apply String.eqb_neq in N. now rewrite N.
    + destruct (String.eqb k k2); [reflexivity | exact IH].
Qed.

Lemma dict_get_absent (k : string) (d : list (string * V)) :
  ~ In k (map fst d) -> dict_get k d = None.
Proof.
  induction d as [| [k' v'] d IH]; simpl; intros N; [reflexivity |].
  destruct (String.eqb_spec k k') as [-> | _]; [tauto |].
  apply IH. tauto.
Qed.

Lemma dict_get_In (k : string) (v : V) (d : list (string * V)) :
  is_dict d -> In (k, v) d -> dict_get k d = Some v.
Proof.
  unfold is_dict.
  induction d as [| [k' v'] d IH]; simpl; intros N H; [tauto |].
  inversion N as [| ? ? Hn Hd]; subst.
  destruct H as [[= -> ->] | H].
  - now rewrite String.eqb_refl.
  - destruct (String.eqb_spec k k') as [-> | _]; [| now apply IH].
    exfalso. apply Hn. apply in_map_iff. now exists (k', v).
Qed.

End DictFacts.

(** ** Positional inputs *)

Section PositionalInputs.

(** One pass over input sets of the right length records the [i]-th handle
    of each, in the order of the sets. *)
Lemma add_input_set_pick (i L : nat) (inps : list pyvalue) :
  forall (spec : OpSpec) (inp : option pyvalue),
    i < L ->
    forallb is_handle_list inps = true ->
    forallb (fun v => Nat.eqb (list_length v) L) inps = true ->
    exists spec' inp',
      add_input_set i L inps spec inp = inr (spec', inp') /\
      inputs spec' = (inputs spec ++ map (pick i) inps)%list /\
      args spec' = args spec.
Proof.
  induction inps as [| v inps IH]; intros spec inp Hi H Hl; simpl in *.
  - exists spec, inp. now rewrite app_nil_r.
  - apply andb_true_iff in H, Hl. destruct H as [Hv H], Hl as [Lv Hl].
    destruct v as [| | | | l | |]; try discriminate Hv. simpl in Hv, Lv.
    rewrite Lv. simpl. apply Nat.eqb_eq in Lv.
    destruct (nth_error l i) as [x |] eqn:N;
      [| apply nth_error_None in N; lia].
    assert (T : is_tensor x = true).
    { rewrite forallb_forall in Hv. apply Hv. eapply nth_error_In, N. }
    destruct x; try discriminate T.
    destruct (IH (AddInput (name t) (device t) spec)
                 (Some (PyList l)) Hi H Hl) as (s' & i' & E & I & A).
    exists s', i'. rewrite E, I, A. simpl. now rewrite <- app_assoc.
Qed.

Lemma add_input_sets_pick (L : nat) (inps : list pyvalue) (idx : list nat) :
  forall (spec : OpSpec) (inp : option pyvalue),
    Forall (fun i => i < L) idx ->
    forallb is_handle_list inps = true ->
    forallb (fun v => Nat.eqb (list_length v) L) inps = true ->
    exists spec' inp',
      add_input_sets idx L inps spec inp = inr (spec', inp') /\
      inputs spec'
      = (inputs spec ++ flat_map (fun i => map (pick i) inps) idx)%list /\
      args spec' = args spec.
Proof.
  induction idx as [| i idx IH]; intros spec inp Hi H Hl; simpl.
  - exists spec, inp. now rewrite app_nil_r.
  - inversion Hi as [| ? ? Hlt Hrest]; subst.
    destruct (add_input_set_pick i L inps spec inp Hlt H Hl)
      as (s1 & i1 & E & I & A).
    rewrite E. simpl.
    destruct (IH s1 i1 Hrest H Hl) as (s2 & i2 & E2 & I2 & A2).
    exists s2, i2. rewrite E2, I2, I, A2, A. now rewrite <- app_assoc.
Qed.

(** Input sets of equal length: the handles are recorded index by index
    and, within an index, set by set; the length is recorded as
    [num_input_sets]. *)
Lemma input_sets_recorded (l0 : list pyvalue) (rest : list pyvalue)
      (spec : OpSpec) :
  let inps := PyList l0 :: rest in
  let L := List.length l0 in
  forallb is_handle_list inps = true ->
  forallb (fun v => Nat.eqb (list_length v) L) inps = true ->
  exists spec' inp',
    classify_inputs inps spec = inr (spec', inp') /\
    inputs spec'
    = (inputs spec
         ++ flat_map (fun i => map (pick i) inps) (seq 0 L))%list /\
    dict_get "num_input_sets" (args spec') = Some (PyInt (Z.of_nat L)).
Proof.
  intros inps L H Hl.
  destruct (add_input_sets_pick L inps (seq 0 L) spec None) as
    (s' & i' & E & I & _); auto.
  { apply Forall_forall. intros i Hi. apply in_seq in Hi. lia. }
  subst inps L. unfold classify_inputs. rewrite E. simpl.
  eexists _, _. split; [reflexivity |]. simpl.
  split; [exact I | apply dict_get_set_same].
Qed.

(** One pass over input sets, one of which has another length than the
    first: [RuntimeError]. *)
Lemma add_input_set_mismatch (i L : nat) (inps : list pyvalue) :
  forall (spec : OpSpec) (inp : option pyvalue),
    i < L ->
    forallb is_handle_list inps = true ->
    existsb (fun v => negb (Nat.eqb (list_length v) L)) inps = true ->
    exists n,
      n <> L /\
      add_input_set i L inps spec inp
      = inl (RuntimeError (msg_same_length L n)).
Proof.
  induction inps as [| v inps IH]; intros spec inp Hi H Hx; simpl in *.
  - discriminate.
  - apply andb_true_iff in H. destruct H as [Hv H].
    destruct v as [| | | | l | |]; try discriminate Hv. simpl in Hv, Hx.
    destruct (Nat.eqb_spec (List.length l) L) as [Lv | Lv]; simpl in *.
    + destruct (nth_error l i) as [x |] eqn:N;
        [| apply nth_error_None in N; lia].
      assert (T : is_tensor x = true).
      { rewrite forallb_forall in Hv. apply Hv. eapply nth_error_In, N. }
      destruct x; try discriminate T.
      apply IH; assumption.
    + exists (List.length l). split; [exact Lv | reflexivity].
Qed.

(** With a first input set that is not empty, a set of another length makes
    the construction raise [RuntimeError]. *)
Lemma input_sets_length_mismatch (id : nat) (op : Op)
      (kw : list (string * pyvalue))
      (l0 : list pyvalue) (rest : list pyvalue) :
  let inps := PyList l0 :: rest in
  let L := List.length l0 in
  0 < L ->
  forallb is_handle_list inps = true ->
  existsb (fun v => negb (Nat.eqb (list_length v) L)) inps = true ->
  exists n,
    n <> L /\
    OperatorInstance_fill id inps op kw
    = inl (RuntimeError (msg_same_length L n)).
Proof.
  intros inps L Hpos H Hx.
  destruct (add_input_set_mismatch 0 L inps (op_spec op) None Hpos H Hx)
    as (n & Hn & E).
  exists n. split; [exact Hn |].
  subst inps L. unfold OperatorInstance_fill, classify_inputs.
  destruct (List.length l0) as [| L']; [lia |].
  cbn [seq add_input_sets]. rewrite E. reflexivity.
Qed.

(** Input sets of two handles each are recorded index by index, and their
    number is recorded as [num_input_sets]. *)
Lemma input_sets_interleaved (id : nat) (op : Op)
      (a1 a2 b1 b2 : TensorReference) :
  exists inst,
    OperatorInstance_fill id
      [PyList [PyTensor a1; PyTensor a2]; PyList [PyTensor b1; PyTensor b2]]
      op [] = inr inst /\
    inputs (inst_spec inst)
    = (inputs (op_spec op)
         ++ [(name a1, device a1); (name b1, device b1);
             (name a2, device a2); (name b2, device b2)])%list /\
    dict_get "num_input_sets" (args (inst_spec inst)) = Some (PyInt 2).
Proof.
  eexists. split; [reflexivity |]. simpl. split.
  - now rewrite <- !app_assoc.
  - apply dict_get_set_same.
Qed.

(** A second list shorter than the first, non-empty one is refused. *)
Lemma input_sets_mismatch (id : nat) (op : Op)
      (a1 a2 b1 : TensorReference) (kw : list (string * pyvalue)) :
  OperatorInstance_fill id
    [PyList [PyTensor a1; PyTensor a2]; PyList [PyTensor b1]] op kw
  = inl (RuntimeError (msg_same_length 2 1)).
Proof. reflexivity. Qed.

(** C2, where the code departs from it: the lengths are compared inside the
    loop over the indices of the first list, so with an empty first list no
    comparison is made; the construction returns normally, records no input
    and sets [num_input_sets] to 0. *)
Theorem empty_first_input_set_accepted (op : Op) (b1 : TensorReference)
        (c : nat) :
  exists inst,
    OperatorInstance_init [PyList []; PyList [PyTensor b1]] op [] c
    = (inr inst, S c) /\
    inputs (inst_spec inst) = inputs (op_spec op) /\
    dict_get "num_input_sets" (args (inst_spec inst)) = Some (PyInt 0).
Proof.
  eexists. split; [reflexivity |]. simpl. split.
  - reflexivity.
  - apply dict_get_set_same.
Qed.

End PositionalInputs.

(** ** Keyword arguments of a call *)

Section ArgumentInputs.

(** When every keyword other than [name] carries a handle, each is recorded
    as an argument input and joins the instance's inputs, in order. *)
Lemma add_argument_inputs_handles (kw : list (string * pyvalue)) :
  forall (inp : option pyvalue) (spec : OpSpec) (ins : list pyvalue),
    (forall k v, In (k, v) kw -> k <> "name" -> is_tensor v = true) ->
    exists spec',
      add_argument_inputs kw inp spec ins
      = inr (spec', (ins ++ map snd (argument_items kw))%list) /\
      argument_inputs spec'
      = (argument_inputs spec
           ++ map (fun kv => (fst kv, tensor_name (snd kv)))
                  (argument_items kw))%list /\
      inputs spec' = inputs spec /\ args spec' = args spec /\
      outputs spec' = outputs spec.
Proof.
  induction kw as [| [k v] kw IH]; intros inp spec ins H; simpl.
  - exists spec. rewrite !app_nil_r. auto.
  - unfold argument_items; simpl. fold (argument_items kw).
    destruct (String.eqb_spec k "name") as [-> | N]; simpl.
    + apply IH. intros k' v' I. apply H. now right.
    + assert (T : is_tensor v = true) by (apply (H k v); [now left | exact N]).
      destruct v; try discriminate T.
      destruct (IH inp (AddArgumentInput k (name t) spec)
                   (ins ++ [PyTensor t])%list) as (s' & E & A & I & G & O).
      { intros k' v' I. apply H. now right. }
      exists s'. rewrite E, A. simpl. rewrite <- !app_assoc. auto.
Qed.

(** The first keyword other than [name] whose value is not a handle stops
    the construction: with [TypeError] if the loops over the positional
    inputs have bound [inp], with [UnboundLocalError] if they have not. *)
Lemma add_argument_inputs_rejects (pre post : list (string * pyvalue))
      (k : string) (v : pyvalue) :
  forall (inp : option pyvalue) (spec : OpSpec) (ins : list pyvalue),
    (forall k' v', In (k', v') pre -> k' <> "name" -> is_tensor v' = true) ->
    k <> "name" ->
    is_tensor v = false ->
    add_argument_inputs (pre ++ (k, v) :: post) inp spec ins
    = inl (match inp with
           | None => UnboundLocalError "inp"
           | Some x => TypeError (msg_expected_tensor 28 (type_name x))
           end).
Proof.
  induction pre as [| [k0 v0] pre IH]; intros inp spec ins H N T; simpl.
  - apply String.eqb_neq in N. rewrite N.
    destruct v; try discriminate T; destruct inp; reflexivity.
  - destruct (String.eqb_spec k0 "name") as [-> | N0].
    + apply IH; auto. intros k' v' I. apply H. now right.
    + assert (T0 : is_tensor v0 = true) by (apply (H k0 v0); [now left | exact N0]).
      destruct v0; try discriminate T0.
      apply IH; auto. intros k' v' I. apply H. now right.
Qed.

(** C7, where the code departs from it: the message of line 93 is built from
    the local [inp] of the loops over the positional inputs; after a call
    without positional inputs [inp] was never bound, so a keyword argument
    that is not a handle raises [UnboundLocalError], not [TypeError]. *)
Theorem keyword_value_without_inputs (op : Op) (c : nat) :
  OperatorInstance_init [] op [("x", PyInt 5)] c
  = (inl (UnboundLocalError "inp"), S c).
Proof. reflexivity. Qed.

(** With a positional input the same keyword argument raises [TypeError],
    with a message about the type of the last positional input. *)
Lemma keyword_value_with_input (op : Op) (c : nat) (a : TensorReference) :
  OperatorInstance_init [PyTensor a] op [("x", PyInt 5)] c
  = (inl (TypeError (msg_expected_tensor 28 "TensorReference")), S c).
Proof. reflexivity. Qed.

End ArgumentInputs.

(** ** The arity check of a call *)

Section Arity.

Lemma arity_violated_true (schema : Schema) (inps : list pyvalue) :
  (Z.of_nat (List.length inps) < MinNumInput schema
   \/ MaxNumInput schema < Z.of_nat (List.length inps))%Z ->
  arity_violated schema inps = true.
Proof.
  unfold arity_violated. intros H. apply orb_true_iff.
  destruct H as [H | H]; [right | left]; lia.
Qed.

Lemma arity_violated_false (schema : Schema) (inps : list pyvalue) :
  (MinNumInput schema <= Z.of_nat (List.length inps) <= MaxNumInput schema)%Z ->
  arity_violated schema inps = false.
Proof.
  unfold arity_violated. intros H. apply orb_false_iff. split; lia.
Qed.

(** C4: a call with fewer positional inputs than [MinNumInput] or more than
    [MaxNumInput] raises [ValueError]; the message gives the operator's name,
    the two bounds and the number received; the counter is as before the
    call, no instance having been constructed.  With a number of inputs
    within the bounds, both included, the call goes on to construct the
    instance, generate the outputs and return them. *)
Theorem call_arity_check (self : Op) (inps : list pyvalue)
        (kwargs : list (string * pyvalue)) (c : nat) :
  let n := List.length inps in
  let lo := MinNumInput (op_schema self) in
  let hi := MaxNumInput (op_schema self) in
  ((Z.of_nat n < lo \/ hi < Z.of_nat n)%Z ->
   Operator_call self inps kwargs c
   = (inl (ValueError
             ("Operator " ++ op_type_name self ++ " expects [" ++ strZ lo
                ++ "," ++ nl ++ spaces 20 ++ strZ hi
                ++ "] inputs, but received " ++ str n)), c)) /\
  ((lo <= Z.of_nat n <= hi)%Z ->
   Operator_call self inps kwargs c
   = (op_instance <- OperatorInstance_init inps self kwargs ;;
      generated <- lift (generate_outputs op_instance) ;;
      lift (call_result generated)) c).
Proof.
  intros n lo hi. split; intros H.
  - apply arity_violated_true in H.
    unfold Operator_call, Operator_call_instance, bind. now rewrite H.
  - apply arity_violated_false in H.
    unfold Operator_call, Operator_call_instance, bind. rewrite H.
    destruct (OperatorInstance_init inps self kwargs c) as [[e | inst] c'];
      reflexivity.
Qed.

(** C10: a call refused by the arity check leaves the counter alone, so that
    whatever is built next is built as if the call had not been made, and
    the next instance gets the id the refused call found in the counter.  A
    call that passes the check and fails in [__init__] has taken that id:
    the counter is one further.  ([__init__] runs when no keyword of the
    call names one of its parameters; a call with such a keyword is refused
    at line 192 before [__init__] is entered, and takes no id.) *)
Theorem refused_call_keeps_counter (self : Op) (inps : list pyvalue)
        (kwargs : list (string * pyvalue)) (c : nat) :
  let n := Z.of_nat (List.length inps) in
  let lo := MinNumInput (op_schema self) in
  let hi := MaxNumInput (op_schema self) in
  ((n < lo \/ hi < n)%Z ->
   (exists e, Operator_call self inps kwargs c = (inl e, c)) /\
   (forall (B : Type) (k : M B),
      after (Operator_call self inps kwargs) k c = k c) /\
   (forall inps2 op2 kw2 inst c',
      after (Operator_call self inps kwargs)
            (OperatorInstance_init inps2 op2 kw2) c = (inr inst, c') ->
      inst_id inst = c)) /\
  ((lo <= n <= hi)%Z ->
   (accepts_keywords init_parameters kwargs = true ->
    forall e,
      OperatorInstance_fill c inps self kwargs = inl e ->
      Operator_call self inps kwargs c = (inl e, S c) /\
      (forall inps2 op2 kw2 inst c',
         after (Operator_call self inps kwargs)
               (OperatorInstance_init inps2 op2 kw2) c = (inr inst, c') ->
         inst_id inst = S c)) /\
   (accepts_keywords init_parameters kwargs = false ->
    exists m, Operator_call self inps kwargs c = (inl (TypeError m), c))).
Proof.
  intros n lo hi. split; intros H.
  - apply arity_violated_true in H.
    assert (E : Operator_call self inps kwargs c
                = (inl (ValueError (msg_arity 20 (op_type_name self) lo hi
                                              (List.length inps))), c)).
    { unfold Operator_call, Operator_call_instance, bind. now rewrite H. }
    split; [eauto | split].
    + intros B k. unfold after. now rewrite E.
    + intros inps2 op2 kw2 inst c'. unfold after. rewrite E. simpl.
      intros R. apply OperatorInstance_init_inv in R.
      destruct R as (_ & _ & F).
      now apply OperatorInstance_fill_fresh in F.
  - apply arity_violated_false in H. split.
    + intros A e F.
      assert (E : Operator_call self inps kwargs c = (inl e, S c)).
      { unfold Operator_call, Operator_call_instance, bind. rewrite H.
        rewrite (OperatorInstance_init_bound _ _ _ _ A), F. reflexivity. }
      split; [exact E |].
      intros inps2 op2 kw2 inst c'. unfold after. rewrite E. simpl.
      intros R. apply OperatorInstance_init_inv in R.
      destruct R as (_ & _ & G).
      now apply OperatorInstance_fill_fresh in G.
    + intros A.
      destruct (OperatorInstance_init_refused inps self kwargs c A)
        as [m E].
      exists m. unfold Operator_call, Operator_call_instance, bind.
      rewrite H, E. reflexivity.
Qed.

End Arity.

(** ** Construction of an operator *)

Section Factory.

Variable GetSchema : string -> result Schema.

Lemma store_arguments_empty_list (kw : list (string * pyvalue)) :
  forall spec : OpSpec,
    (exists k, In (k, PyList []) kw) ->
    store_arguments kw spec = inl (RuntimeError msg_empty_list).
Proof.
  induction kw as [| [k v] kw IH]; intros spec [k0 H]; simpl in *.
  - tauto.
  - destruct H as [[= -> ->] | H]; [reflexivity |].
    assert (R : store_arguments kw (AddArg k v spec)
                = inl (RuntimeError msg_empty_list)) by (apply IH; eauto).
    destruct v as [| | | | [| x l] | |]; auto.
Qed.

Lemma store_arguments_no_empty_list (kw : list (string * pyvalue)) :
  forall spec : OpSpec,
    (forall k, ~ In (k, PyList []) kw) ->
    store_arguments kw spec = inr (store_all kw spec).
Proof.
  unfold store_all.
  induction kw as [| [k v] kw IH]; intros spec H; simpl in *.
  - reflexivity.
  - assert (R : store_arguments kw (AddArg k v spec)
                = inr (fold_left (fun s kv => AddArg (fst kv) (snd kv) s) kw
                                 (AddArg k v spec))).
    { apply IH. intros k0 I. apply (H k0). now right. }
    destruct v as [| | | | [| x l] | |]; auto.
    exfalso. apply (H k). now left.
Qed.

(** Storing a [dict] of arguments: a key of the dict ends up with the dict's
    value, any other key keeps what the spec had. *)
Lemma store_all_get (k : string) (kw : list (string * pyvalue)) :
  forall spec : OpSpec,
    is_dict kw ->
    dict_get k (args (store_all kw spec))
    = match dict_get k kw with
      | Some v => Some v
      | None => dict_get k (args spec)
      end.
Proof.
  unfold store_all, is_dict.
  induction kw as [| [k' v'] kw IH]; intros spec N; simpl in *.
  - reflexivity.
  - inversion N as [| ? ? Hn Hd]; subst. rewrite (IH _ Hd). simpl.
    destruct (String.eqb_spec k k') as [-> | D].
    + rewrite (dict_get_absent _ _ Hn). apply dict_get_set_same.
    + now rewrite (dict_get_set_other _ _ _ _ D).
Qed.

Lemma store_all_kind (kw : list (string * pyvalue)) :
  forall spec : OpSpec,
    kind_name (store_all kw spec) = kind_name spec /\
    inputs (store_all kw spec) = inputs spec /\
    argument_inputs (store_all kw spec) = argument_inputs spec /\
    outputs (store_all kw spec) = outputs spec.
Proof.
  unfold store_all.
  induction kw as [| [k v] kw IH]; intros spec; simpl; [auto |].
  destruct (IH (AddArg k v spec)) as (A & B & C & D).
  rewrite A, B, C, D. auto.
Qed.

(** C8: for a registered kind, the construction of an operator raises
    [RuntimeError] as soon as one keyword argument, whatever its key, is an
    empty list; without such an argument it returns normally and every
    keyword argument is on the spec with the value given, a one-element list
    like any other value. *)
Theorem empty_list_argument_rejected (name op_device : string)
        (kwargs : list (string * pyvalue)) (schema : Schema) :
  GetSchema name = inr schema ->
  ((exists k, In (k, PyList []) kwargs) ->
   Operator_init GetSchema name op_device kwargs
   = inl (RuntimeError "List arguments need to have at least 1 element.")) /\
  ((forall k, ~ In (k, PyList []) kwargs) ->
   exists op,
     Operator_init GetSchema name op_device kwargs = inr op /\
     (is_dict kwargs ->
      forall k v, In (k, v) kwargs ->
                  dict_get k (args (op_spec op)) = Some v)).
Proof.
  intros S. unfold Operator_init, rbind. rewrite S. split; intros H.
  - now rewrite store_arguments_empty_list.
  - rewrite store_arguments_no_empty_list by exact H.
    eexists. split; [reflexivity |]. simpl.
    intros D k v I. rewrite store_all_get by exact D.
    now rewrite (dict_get_In _ _ _ D I).
Qed.

(** C5, as the code has it: without a [device] keyword the default device
    of the factory becomes the operator's device and is put on the spec as
    the argument [device]; with one, the value given becomes the operator's
    device and the loop that stores the keyword arguments puts it on the
    spec as the argument [device] as well. *)
Theorem device_argument_recorded (name default_device : string)
        (kwargs : list (string * pyvalue)) (op : Op) :
  is_dict kwargs ->
  Operator_init GetSchema name default_device kwargs = inr op ->
  (dict_get "device" kwargs = None ->
   op_device op = PyStr default_device /\
   dict_get "device" (args (op_spec op)) = Some (PyStr default_device)) /\
  (forall v, dict_get "device" kwargs = Some v ->
   op_device op = v /\
   dict_get "device" (args (op_spec op)) = Some v).
Proof.
  intros D. unfold Operator_init, rbind.
  destruct (GetSchema name) as [e | schema]; [discriminate |].
  destruct (store_arguments kwargs _) as [e | spec'] eqn:E; [discriminate |].
  intros [= <-]. simpl.
  assert (N : forall k, ~ In (k, PyList []) kwargs).
  { intros k I.
    rewrite store_arguments_empty_list in E by eauto. discriminate. }
  rewrite store_arguments_no_empty_list in E by exact N.
  injection E as <-.
  split.
  - intros A. rewrite A. simpl. split; [reflexivity |].
    rewrite store_all_get by exact D. rewrite A. simpl.
    reflexivity.
  - intros v A. rewrite A. simpl. split; [reflexivity |].
    rewrite store_all_get by exact D. now rewrite A.
Qed.

End Factory.

(** ** The named-output reader *)

Section Reader.

(** C9: a reader whose features are [image -> f1] and [label -> f2], called
    with inputs within the bounds and accepted by the instance construction
    (no keyword names a parameter of [__init__], and [__init__] returns),
    returns the mapping of [image] and [label] to two handles with different
    names, built from "_TFRecordReader", the id of the instance and the
    position of the feature; the spec of the instance carries
    [feature_names = [image, label]] and [features = [f1, f2]]. *)
Theorem reader_two_features (self : TFRecordReader) (inps : list pyvalue)
        (kwargs : list (string * pyvalue)) (c : nat) (f1 f2 : pyvalue)
        (inst : OperatorInstance) :
  tfr_features self = [("image", f1); ("label", f2)] ->
  (MinNumInput (tfr_schema self) <= Z.of_nat (List.length inps)
   <= MaxNumInput (tfr_schema self))%Z ->
  accepts_keywords init_parameters kwargs = true ->
  OperatorInstance_fill c inps (reader_op self) kwargs = inr inst ->
  let h0 := mkTensorReference
              ("_TFRecordReader_id_" ++ str c ++ "_output_0")
              (tfr_device self) c in
  let h1 := mkTensorReference
              ("_TFRecordReader_id_" ++ str c ++ "_output_1")
              (tfr_device self) c in
  exists inst',
    TFRecordReader_call_instance self inps kwargs c
    = (inr ([("image", h0); ("label", h1)], inst'), S c) /\
    TFRecordReader_call self inps kwargs c
    = (inr [("image", h0); ("label", h1)], S c) /\
    name h0 <> name h1 /\
    inst_id inst' = c /\
    inst_outputs inst' = [h0; h1] /\
    outputs (inst_spec inst')
    = (outputs (inst_spec inst)
         ++ [(name h0, tfr_device self); (name h1, tfr_device self)])%list /\
    dict_get "feature_names" (args (inst_spec inst'))
    = Some (PyList [PyStr "image"; PyStr "label"]) /\
    dict_get "features" (args (inst_spec inst'))
    = Some (PyList [f1; f2]).
Proof.
  intros F A K I h0 h1.
  apply arity_violated_false in A.
  destruct (OperatorInstance_fill_fresh _ _ _ _ _ I) as (Hid & Hout & _).
  assert (E : TFRecordReader_call_instance self inps kwargs c
              = (inr ([("image", h0); ("label", h1)],
                      set_spec
                        (AddArg "features" (PyList [f1; f2])
                           (AddArg "feature_names"
                              (PyList [PyStr "image"; PyStr "label"])
                              (AddOutput (name h1) (device h1)
                                 (AddOutput (name h0) (device h0)
                                    (inst_spec inst)))))
                        (append_output h1 (append_output h0 inst))), S c)).
  { unfold TFRecordReader_call_instance, bind. rewrite A.
    rewrite (OperatorInstance_init_bound _ _ _ _ K), I, F. unfold ret. simpl.
    rewrite Hid. reflexivity. }
  eexists. split; [exact E |].
  split; [unfold TFRecordReader_call, bind; rewrite E; reflexivity |].
  split.
  { unfold h0, h1. simpl. intros [= H]. apply append_inv_head in H.
    discriminate H. }
  simpl. rewrite Hid, Hout. repeat split.
  - now rewrite <- app_assoc.
  - rewrite dict_get_set_other by discriminate. apply dict_get_set_same.
  - apply dict_get_set_same.
Qed.

End Reader.

(** ** The statements at concrete inputs *)

Section Instances.

Import Examples.

(** Two constructions with the same operator and no argument at all. *)
Lemma session_output_names_disjoint_witness :
  exists a b ga gb,
    0 <> 1 /\
    nth_error (fst (session [([], op_cpu, []); ([], op_cpu, [])] 0)) 0
    = Some (inr a) /\
    nth_error (fst (session [([], op_cpu, []); ([], op_cpu, [])] 0)) 1
    = Some (inr b) /\
    generate_outputs a = inr ga /\
    generate_outputs b = inr gb /\
    map name (inst_outputs ga)
    = ["Resize_id_0_output_0"; "Resize_id_0_output_1"] /\
    map name (inst_outputs gb)
    = ["Resize_id_1_output_0"; "Resize_id_1_output_1"] /\
    (forall x y, In x (inst_outputs ga) -> In y (inst_outputs gb) ->
                 name x <> name y).
Proof.
  eexists _, _, _, _.
  split; [lia |].
  do 6 (split; [reflexivity |]).
  exact (proj1 (proj2
    (proj1 session_output_names_disjoint
       [([], op_cpu, []); ([], op_cpu, [])] 0 0 1 _ _ _ _
       ltac:(lia) eq_refl eq_refl eq_refl eq_refl))).
Defined.

Lemma generate_outputs_appends_witness :
  CalculateOutputs (op_schema (inst_op inst_mixed)) (inst_spec inst_mixed)
  = inr 1%Z /\
  (0 <= 1)%Z /\
  op_device (inst_op inst_mixed) = PyStr "mixed" /\
  exists g,
    generate_outputs inst_mixed = inr g /\
    inst_outputs g = [mkTensorReference "Decode_id_4_output_0" "gpu" 4] /\
    outputs (inst_spec g) = [("Decode_id_4_output_0", "gpu")].
Proof.
  split; [reflexivity | split; [lia | split; [reflexivity |]]].
  destruct (generate_outputs_appends inst_mixed 1 eq_refl ltac:(lia))
    as (dev & g & minted & G & O & S & L & N & D & _).
  exists g. split; [exact G |].
  assert (E : dev = "gpu") by (apply D; right; reflexivity).
  assert (M : minted = [mkTensorReference "Decode_id_4_output_0" "gpu" 4]).
  { destruct minted as [| t [| t' minted]];
      [discriminate L | | simpl in L; lia].
    specialize (N 0 ltac:(lia)). simpl in N. injection N as ->.
    now rewrite E. }
  rewrite O, S, M. split; reflexivity.
Defined.

(** Three inputs where at most two are taken, then one input. *)
Lemma call_arity_check_witness :
  (2 < Z.of_nat (List.length [a1; a2; b1]))%Z /\
  Operator_call op_cpu [a1; a2; b1] [] 7
  = (inl (ValueError
            ("Operator Resize expects [0," ++ nl ++ spaces 20
               ++ "2] inputs, but received 3")), 7) /\
  (0 <= Z.of_nat (List.length [a1]) <= 2)%Z /\
  Operator_call op_cpu [a1] [] 7
  = (op_instance <- OperatorInstance_init [a1] op_cpu [] ;;
     generated <- lift (generate_outputs op_instance) ;;
     lift (call_result generated)) 7.
Proof.
  split; [simpl; lia |].
  split; [apply (proj1 (call_arity_check op_cpu [a1; a2; b1] [] 7));
          right; simpl; lia |].
  split; [simpl; lia |].
  apply (proj2 (call_arity_check op_cpu [a1] [] 7)). simpl; lia.
Defined.

Lemma refused_call_keeps_counter_witness :
  (2 < Z.of_nat (List.length [a1; a2; b1]))%Z /\
  after (Operator_call op_cpu [a1; a2; b1] [])
        (OperatorInstance_init [] op_cpu []) 7
  = OperatorInstance_init [] op_cpu [] 7 /\
  (0 <= Z.of_nat (List.length [PyInt 1]) <= 2)%Z /\
  accepts_keywords init_parameters (@nil (string * pyvalue)) = true /\
  OperatorInstance_fill 7 [PyInt 1] op_cpu []
  = inl (TypeError (msg_expected_tensor_or_list "int")) /\
  Operator_call op_cpu [PyInt 1] [] 7
  = (inl (TypeError (msg_expected_tensor_or_list "int")), 8) /\
  accepts_keywords init_parameters [("op", PyInt 5)] = false /\
  exists m,
    Operator_call op_cpu [] [("op", PyInt 5)] 7 = (inl (TypeError m), 7).
Proof.
  split; [simpl; lia |].
  split.
  { destruct (proj1 (refused_call_keeps_counter op_cpu [a1; a2; b1] [] 7))
      as (_ & K & _); [right; simpl; lia |].
    apply K. }
  split; [simpl; lia |].
  split; [reflexivity |].
  split; [reflexivity |].
  split.
  { apply (proj1 (proj2 (refused_call_keeps_counter op_cpu [PyInt 1] [] 7)
                        ltac:(simpl; lia)) eq_refl _ eq_refl). }
  split; [reflexivity |].
  apply (proj2 (proj2 (refused_call_keeps_counter op_cpu []
                         [("op", PyInt 5)] 7) ltac:(simpl; lia)) eq_refl).
Defined.

Lemma empty_list_argument_rejected_witness :
  registry "Resize" = inr (schema_n 2) /\
  (exists k, In (k, PyList []) [("my_list_arg", PyList [])]) /\
  Operator_init registry "Resize" "cpu" [("my_list_arg", PyList [])]
  = inl (RuntimeError "List arguments need to have at least 1 element.") /\
  (forall k, ~ In (k, PyList []) [("my_list_arg", PyList [PyInt 1])]) /\
  is_dict [("my_list_arg", PyList [PyInt 1])] /\
  exists op,
    Operator_init registry "Resize" "cpu" [("my_list_arg", PyList [PyInt 1])]
    = inr op /\
    dict_get "my_list_arg" (args (op_spec op)) = Some (PyList [PyInt 1]).
Proof.
  assert (E : exists k, In (k, PyList []) [("my_list_arg", PyList [])])
    by (exists "my_list_arg"; simpl; auto).
  assert (N : forall k, ~ In (k, PyList []) [("my_list_arg", PyList [PyInt 1])])
    by (intros k [H | H]; [discriminate H | exact H]).
  split; [reflexivity |].
  split; [exact E |].
  split.
  { apply (proj1 (empty_list_argument_rejected registry "Resize" "cpu"
                    _ (schema_n 2) eq_refl)). exact E. }
  split; [exact N |].
  assert (D : is_dict [("my_list_arg", PyList [PyInt 1])])
    by (unfold is_dict; simpl; constructor; [simpl; tauto | constructor]).
  split; [exact D |].
  destruct (proj2 (empty_list_argument_rejected registry "Resize" "cpu"
                     _ (schema_n 2) eq_refl) N) as (op & H & R).
  exists op. split; [exact H |].
  apply (R D). simpl. auto.
Defined.

Lemma device_argument_recorded_witness :
  is_dict [("device", PyStr "gpu")] /\
  (exists op,
     Operator_init registry "Resize" "cpu" [("device", PyStr "gpu")] = inr op /\
     op_device op = PyStr "gpu" /\
     dict_get "device" (args (op_spec op)) = Some (PyStr "gpu")) /\
  is_dict (@nil (string * pyvalue)) /\
  (exists op,
     Operator_init registry "Resize" "cpu" [] = inr op /\
     op_device op = PyStr "cpu" /\
     dict_get "device" (args (op_spec op)) = Some (PyStr "cpu")).
Proof.
  assert (D1 : is_dict [("device", PyStr "gpu")])
    by (unfold is_dict; simpl; constructor; [simpl; tauto | constructor]).
  assert (D0 : is_dict (@nil (string * pyvalue))) by constructor.
  split; [exact D1 |].
  split.
  { eexists. split; [reflexivity |].
    apply (proj2 (device_argument_recorded registry "Resize" "cpu"
                    [("device", PyStr "gpu")] _ D1 eq_refl)).
    reflexivity. }
  split; [exact D0 |].
  eexists. split; [reflexivity |].
  apply (proj1 (device_argument_recorded registry "Resize" "cpu"
                  [] _ D0 eq_refl)).
  reflexivity.
Defined.

Lemma generate_outputs_again_witness :
  exists g1 g2,
    generate_outputs inst0 = inr g1 /\
    generate_outputs g1 = inr g2 /\
    inst_outputs g2
    = (inst_outputs g1
         ++ map (handle "Resize" 0 "cpu") (range 2))%list.
Proof.
  eexists.
  destruct (proj1 (generate_outputs_again inst0 _ eq_refl) 2%Z eq_refl)
    as (g2 & G & O & _).
  exists g2. split; [reflexivity |]. split; [exact G | exact O].
Defined.

Lemma reader_two_features_witness :
  tfr_features reader0
  = [("image", PyOpaque "Feature" 1); ("label", PyOpaque "Feature" 2)] /\
  (MinNumInput (tfr_schema reader0) <= Z.of_nat (List.length (@nil pyvalue))
   <= MaxNumInput (tfr_schema reader0))%Z /\
  accepts_keywords init_parameters (@nil (string * pyvalue)) = true /\
  (exists inst, OperatorInstance_fill 3 [] (reader_op reader0) [] = inr inst) /\
  TFRecordReader_call reader0 [] [] 3
  = (inr [("image",
           mkTensorReference "_TFRecordReader_id_3_output_0" "cpu" 3);
          ("label",
           mkTensorReference "_TFRecordReader_id_3_output_1" "cpu" 3)], 4).
Proof.
  split; [reflexivity |].
  split; [simpl; lia |].
  split; [reflexivity |].
  split; [eexists; reflexivity |].
  destruct (reader_two_features reader0 [] [] 3 _ _ _ eq_refl
              ltac:(simpl; lia) eq_refl eq_refl) as (inst' & _ & C & _).
  exact C.
Defined.

(** C5, a keyword [device] is on the spec: the operator built with
    [device="gpu"] has the argument [device] among the arguments of its
    spec, with the value given. *)
Lemma device_keyword_is_recorded :
  dict_get "device" [("device", PyStr "gpu")] = Some (PyStr "gpu") /\
  exists op,
    Operator_init registry "Resize" "cpu" [("device", PyStr "gpu")] = inr op /\
    op_device op = PyStr "gpu" /\
    args (op_spec op) = [("device", PyStr "gpu")] /\
    dict_get "device" (args (op_spec op)) <> None.
Proof.
  split; [reflexivity |].
  eexists. split; [reflexivity |]. simpl.
  split; [reflexivity |]. split; [reflexivity | discriminate].
Qed.

(** C6, a second call is not refused: on the instance [inst0], whose
    descriptor gives two outputs, the second call returns normally and the
    instance and its spec then hold four outputs, each name twice. *)
Lemma second_generate_outputs_succeeds :
  exists g1 g2,
    generate_outputs inst0 = inr g1 /\
    generate_outputs g1 = inr g2 /\
    map name (inst_outputs g1)
    = ["Resize_id_0_output_0"; "Resize_id_0_output_1"] /\
    map name (inst_outputs g2)
    = ["Resize_id_0_output_0"; "Resize_id_0_output_1";
       "Resize_id_0_output_0"; "Resize_id_0_output_1"] /\
    map fst (outputs (inst_spec g2))
    = ["Resize_id_0_output_0"; "Resize_id_0_output_1";
       "Resize_id_0_output_0"; "Resize_id_0_output_1"].
Proof.
  eexists _, _.
  split; [reflexivity |]. split; [reflexivity |].
  repeat split.
Qed.

End Instances.

(** * Further properties of the builder *)

(** ** Positional inputs given as handles or as sets *)

Section MorePositionalInputs.

Lemma add_inputs_handles (inps : list pyvalue) :
  forall (spec : OpSpec) (inp : option pyvalue),
    forallb is_tensor inps = true ->
    exists inp',
      add_inputs inps spec inp
      = inr (mkOpSpec (kind_name spec) (args spec)
               (inputs spec
                  ++ map (fun v => (tensor_name v, tensor_device v)) inps)
               (argument_inputs spec) (outputs spec), inp') /\
      (inps <> [] -> inp' <> None).
Proof.
  induction inps as [| v inps IH]; intros spec inp H; simpl in *.
  - exists inp. rewrite app_nil_r. destruct spec. split; [reflexivity | tauto].
  - apply andb_true_iff in H. destruct H as [Hv H].
    destruct v; try discriminate Hv.
    destruct (IH (AddInput (name t) (device t) spec) (Some (PyTensor t)) H)
      as (inp' & E & N).
    exists inp'. rewrite E. simpl. rewrite <- app_assoc. split; [reflexivity |].
    intros _. destruct inps; [| apply N; discriminate].
    simpl in E. injection E as _ <-. discriminate.
Qed.

Lemma add_inputs_rejects (pre post : list pyvalue) (v : pyvalue) :
  forall (spec : OpSpec) (inp : option pyvalue),
    forallb is_tensor pre = true ->
    is_tensor v = false ->
    add_inputs (pre ++ v :: post) spec inp
    = inl (TypeError (msg_expected_tensor 28 (type_name v))).
Proof.
  induction pre as [| x pre IH]; intros spec inp H T; simpl in *.
  - destruct v; try reflexivity. discriminate T.
  - apply andb_true_iff in H. destruct H as [Hx H].
    destruct x; try discriminate Hx. now apply IH.
Qed.

(** X1: when every positional input is a handle, no keyword names a
    parameter of [__init__] and every keyword other than [name] carries a
    handle, the construction takes the id and returns normally: the
    handles are on the spec as (name, device) in the order given, after what
    the operator's spec had; no argument is added; the keywords are the
    argument inputs; the inputs of the instance are the positional ones
    followed by the keyword handles; there is no output yet. *)
Theorem handles_recorded_in_order (inps : list pyvalue) (op : Op)
        (kwargs : list (string * pyvalue)) (c : nat) :
  forallb is_tensor inps = true ->
  accepts_keywords init_parameters kwargs = true ->
  (forall k v, In (k, v) kwargs -> k <> "name" -> is_tensor v = true) ->
  exists inst,
    OperatorInstance_init inps op kwargs c = (inr inst, S c) /\
    inputs (inst_spec inst)
    = (inputs (op_spec op)
         ++ map (fun v => (tensor_name v, tensor_device v)) inps)%list /\
    args (inst_spec inst) = args (op_spec op) /\
    argument_inputs (inst_spec inst)
    = (argument_inputs (op_spec op)
         ++ map (fun kv => (fst kv, tensor_name (snd kv)))
                (argument_items kwargs))%list /\
    inst_inputs inst = (inps ++ map snd (argument_items kwargs))%list /\
    inst_outputs inst = [] /\
    outputs (inst_spec inst) = outputs (op_spec op).
Proof.
  intros H B K. rewrite (OperatorInstance_init_bound _ _ _ _ B).
  unfold OperatorInstance_fill.
  assert (C : exists st,
             classify_inputs inps (op_spec op) = inr st /\
             inputs (fst st)
             = (inputs (op_spec op)
                  ++ map (fun v => (tensor_name v, tensor_device v)) inps)%list /\
             args (fst st) = args (op_spec op) /\
             argument_inputs (fst st) = argument_inputs (op_spec op) /\
             outputs (fst st) = outputs (op_spec op)).
  { destruct inps as [| v inps].
    - eexists. split; [reflexivity |]. simpl. now rewrite app_nil_r.
    - destruct (add_inputs_handles (v :: inps) (op_spec op) None H)
        as (inp' & E & _).
      simpl in H. apply andb_true_iff in H. destruct H as [Hv _].
      destruct v; try discriminate Hv.
      unfold classify_inputs. rewrite E. eexists. split; [reflexivity |].
      simpl. auto. }
  destruct C as ([s1 i1] & E & I & A & G & O). rewrite E. simpl.
  destruct (add_argument_inputs_handles kwargs i1 s1 inps K)
    as (s2 & E2 & A2 & I2 & G2 & O2).
  rewrite E2. simpl. eexists. split; [reflexivity |]. simpl.
  simpl in I, A, G, O. rewrite I2, I, G2, A, A2, G, O2, O. auto 7.
Qed.

(** X2: after a first positional input that is a handle, the first input
    that is not one, a list included, makes the construction raise
    [TypeError] with the name of its type; the id is used up.  (The
    keywords name no parameter of [__init__], so that [__init__] runs.) *)
Theorem later_input_not_a_handle (t : TensorReference)
        (pre post : list pyvalue) (v : pyvalue) (op : Op)
        (kwargs : list (string * pyvalue)) (c : nat) :
  accepts_keywords init_parameters kwargs = true ->
  forallb is_tensor pre = true ->
  is_tensor v = false ->
  OperatorInstance_init (PyTensor t :: pre ++ v :: post) op kwargs c
  = (inl (TypeError
            ("Expected inputs of type" ++ nl ++ spaces 28
               ++ "TensorReference. Received" ++ nl ++ spaces 28
               ++ "input type " ++ type_name v)), S c).
Proof.
  intros B H T. rewrite (OperatorInstance_init_bound _ _ _ _ B). f_equal.
  unfold OperatorInstance_fill, classify_inputs.
  rewrite (add_inputs_rejects (PyTensor t :: pre) post v); auto.
Qed.

End MorePositionalInputs.

(** ** Input sets *)

Section MoreInputSets.

Lemma add_input_set_app (i L : nat) (pre rest : list pyvalue) :
  forall (spec : OpSpec) (inp : option pyvalue),
    add_input_set i L (pre ++ rest) spec inp
    = rbind (add_input_set i L pre spec inp)
            (fun st => add_input_set i L rest (fst st) (snd st)).
Proof.
  induction pre as [| v pre IH]; intros spec inp; simpl; [reflexivity |].
  destruct v; try reflexivity.
  destruct (negb (Nat.eqb (List.length l) L)); [reflexivity |].
  destruct (nth_error l i) as [x |]; [| reflexivity].
  destruct x; try reflexivity. apply IH.
Qed.



(** X4: with a first set that is not empty, the first set of another
    length, after sets of handles of the right length, makes the
    construction raise [RuntimeError] with the two lengths; what that set
    holds is not looked at; the id is used up.  (The keywords name no
    parameter of [__init__], so that [__init__] runs.) *)
Theorem input_set_length_checked (l0 l : list pyvalue)
        (pre post : list pyvalue) (op : Op)
        (kwargs : list (string * pyvalue)) (c : nat) :
  let L := List.length l0 in
  accepts_keywords init_parameters kwargs = true ->
  l0 <> [] ->
  forallb is_handle_list (PyList l0 :: pre) = true ->
  forallb (fun v => Nat.eqb (list_length v) L) pre = true ->
  List.length l <> L ->
  OperatorInstance_init (PyList l0 :: pre ++ PyList l :: post) op kwargs c
  = (inl (RuntimeError
            ("Expected input lists" ++ nl ++ spaces 36
               ++ "to have the same length" ++ nl ++ spaces 36
               ++ "(" ++ str L ++ "). Received list of" ++ nl ++ spaces 36
               ++ "length " ++ str (List.length l))), S c).
Proof.
  intros L B N H Hl D. rewrite (OperatorInstance_init_bound _ _ _ _ B).
  f_equal.
  assert (P : 0 < L) by (subst L; destruct l0; [tauto | simpl; lia]).
  destruct (add_input_set_pick 0 L (PyList l0 :: pre) (op_spec op) None P H)
    as (s1 & i1 & E & _).
  { simpl. subst L. now rewrite Nat.eqb_refl. }
  unfold OperatorInstance_fill, classify_inputs. fold L.
  destruct L as [| L'] eqn:EL; [lia |].
  cbn [seq add_input_sets].
  change (PyList l0 :: pre ++ PyList l :: post)
    with ((PyList l0 :: pre) ++ PyList l :: post)%list.
  rewrite add_input_set_app, E. simpl.
  apply Nat.eqb_neq in D. rewrite D. reflexivity.
Qed.

(** X5: with a first set that is not empty, an input that is not a list,
    a handle included, after sets of handles of the right length, makes the
    construction raise [TypeError] with the name of its type.  (The
    keywords name no parameter of [__init__], so that [__init__] runs.) *)
Theorem input_set_not_a_list (l0 : list pyvalue) (v : pyvalue)
        (pre post : list pyvalue) (op : Op)
        (kwargs : list (string * pyvalue)) (c : nat) :
  let L := List.length l0 in
  accepts_keywords init_parameters kwargs = true ->
  l0 <> [] ->
  forallb is_handle_list (PyList l0 :: pre) = true ->
  forallb (fun v => Nat.eqb (list_length v) L) pre = true ->
  is_list v = false ->
  OperatorInstance_init (PyList l0 :: pre ++ v :: post) op kwargs c
  = (inl (TypeError
            ("Expected inputs of type list of" ++ nl ++ spaces 32
               ++ "TensorReference. Received" ++ nl ++ spaces 32
               ++ "input type " ++ type_name v)), S c).
Proof.
  intros L B N H Hl D. rewrite (OperatorInstance_init_bound _ _ _ _ B).
  f_equal.
  assert (P : 0 < L) by (subst L; destruct l0; [tauto | simpl; lia]).
  destruct (add_input_set_pick 0 L (PyList l0 :: pre) (op_spec op) None P H)
    as (s1 & i1 & E & _).
  { simpl. subst L. now rewrite Nat.eqb_refl. }
  unfold OperatorInstance_fill, classify_inputs. fold L.
  destruct L as [| L'] eqn:EL; [lia |].
  cbn [seq add_input_sets].
  change (PyList l0 :: pre ++ v :: post)
    with ((PyList l0 :: pre) ++ v :: post)%list.
  rewrite add_input_set_app, E. simpl.
  destruct v; try reflexivity. discriminate D.
Qed.

Lemma pass_all_handles (i L : nat) (inps : list pyvalue) :
  forall (spec : OpSpec) (inp : option pyvalue),
    forallb (fun v => is_list v && Nat.eqb (list_length v) L) inps = true ->
    forallb (handle_at i) inps = true ->
    exists st, add_input_set i L inps spec inp = inr st.
Proof.
  induction inps as [| v inps IH]; intros spec inp H A; simpl in *.
  - eauto.
  - apply andb_true_iff in H, A. destruct H as [Hv H], A as [Av A].
    destruct v; try discriminate Hv. simpl in Hv, Av.
    rewrite Hv. simpl.
    destruct (nth_error l i) as [x |]; [| discriminate Av].
    destruct x; try discriminate Av. now apply IH.
Qed.

Lemma pass_meets_other_value (i L : nat) (inps : list pyvalue) :
  forall (spec : OpSpec) (inp : option pyvalue),
    forallb (fun v => is_list v && Nat.eqb (list_length v) L) inps = true ->
    i < L ->
    forallb (handle_at i) inps = false ->
    exists x l,
      is_tensor x = false /\ In (PyList l) inps /\ In x l /\
      add_input_set i L inps spec inp
      = inl (TypeError (msg_expected_tensor 32 (type_name x))).
Proof.
  induction inps as [| v inps IH]; intros spec inp H Hi A; simpl in *.
  - discriminate.
  - apply andb_true_iff in H. destruct H as [Hv H].
    destruct v; try discriminate Hv. simpl in Hv, A.
    rewrite Hv. simpl. apply Nat.eqb_eq in Hv.
    destruct (nth_error l i) as [x |] eqn:N;
      [| apply nth_error_None in N; lia].
    destruct (is_tensor x) eqn:T.
    + destruct x; try discriminate T. simpl in A.
      destruct (IH (AddInput (name t) (device t) spec)
                   (Some (PyList l)) H Hi A) as (x & l' & Tx & I & Ix & E).
      exists x, l'. auto.
    + exists x, l. split; [exact T |]. split; [now left |].
      split; [eapply nth_error_In, N |].
      destruct x; try reflexivity. discriminate T.
Qed.

Lemma passes_meet_other_value (L : nat) (inps : list pyvalue)
      (idx : list nat) :
  forall (spec : OpSpec) (inp : option pyvalue),
    forallb (fun v => is_list v && Nat.eqb (list_length v) L) inps = true ->
    Forall (fun i => i < L) idx ->
    existsb (fun i => negb (forallb (handle_at i) inps)) idx = true ->
    exists x l,
      is_tensor x = false /\ In (PyList l) inps /\ In x l /\
      add_input_sets idx L inps spec inp
      = inl (TypeError (msg_expected_tensor 32 (type_name x))).
Proof.
  induction idx as [| i idx IH]; intros spec inp H F X; simpl in *.
  - discriminate.
  - inversion F as [| ? ? Hi F']; subst.
    destruct (forallb (handle_at i) inps) eqn:A; simpl in X.
    + destruct (pass_all_handles i L inps spec inp H A) as (st & E).
      rewrite E. simpl. now apply IH.
    + destruct (pass_meets_other_value i L inps spec inp H Hi A)
        as (x & l & T & I & Ix & E).
      exists x, l. rewrite E. auto.
Qed.

(** X6: sets of one length, one of which holds a value that is not a
    handle: the construction raises [TypeError] with the name of the type of
    such a value.  (The keywords name no parameter of [__init__], so that
    [__init__] runs.) *)
Theorem input_set_element_not_a_handle (l0 : list pyvalue)
        (rest : list pyvalue) (op : Op) (kwargs : list (string * pyvalue))
        (c : nat) :
  let inps := PyList l0 :: rest in
  let L := List.length l0 in
  accepts_keywords init_parameters kwargs = true ->
  forallb (fun v => is_list v && Nat.eqb (list_length v) L) inps = true ->
  (exists l x, In (PyList l) inps /\ In x l /\ is_tensor x = false) ->
  exists x l,
    is_tensor x = false /\ In (PyList l) inps /\ In x l /\
    OperatorInstance_init inps op kwargs c
    = (inl (TypeError
              ("Expected inputs of type" ++ nl ++ spaces 32
                 ++ "TensorReference. Received" ++ nl ++ spaces 32
                 ++ "input type " ++ type_name x)), S c).
Proof.
  intros inps L B H (l & x & Il & Ix & T).
  assert (X : existsb (fun i => negb (forallb (handle_at i) inps)) (seq 0 L)
              = true).
  { apply In_nth_error in Ix. destruct Ix as [j N].
    assert (Lj : j < L).
    { rewrite forallb_forall in H. specialize (H _ Il). simpl in H.
      apply Nat.eqb_eq in H. rewrite <- H. apply nth_error_Some.
      now rewrite N. }
    apply existsb_exists. exists j. split; [apply in_seq; lia |].
    apply negb_true_iff. apply not_true_is_false. intros A.
    rewrite forallb_forall in A. specialize (A _ Il). simpl in A.
    rewrite N in A. congruence. }
  destruct (passes_meet_other_value L inps (seq 0 L) (op_spec op) None H)
    as (x' & l' & T' & I' & Ix' & E); auto.
  { apply Forall_forall. intros i Hi. apply in_seq in Hi. lia. }
  exists x', l'. repeat split; auto.
  rewrite (OperatorInstance_init_bound _ _ _ _ B). f_equal.
  subst inps L. unfold OperatorInstance_fill, classify_inputs.
  rewrite E. reflexivity.
Qed.

End MoreInputSets.

(** ** What the construction of an instance can raise *)

Section ConstructionErrors.

Lemma add_inputs_raises (inps : list pyvalue) :
  forall (spec : OpSpec) (inp : option pyvalue) (e : exn),
    add_inputs inps spec inp = inl e -> exists m, e = TypeError m.
Proof.
  induction inps as [| v inps IH]; intros spec inp e; simpl.
  - discriminate.
  - destruct v; try (intros [= <-]; eauto). apply IH.
Qed.

Lemma add_inputs_binds (inps : list pyvalue) :
  forall (spec : OpSpec) (inp : option pyvalue) (st : loop_state),
    add_inputs inps spec inp = inr st ->
    inps <> [] \/ inp <> None -> snd st <> None.
Proof.
  induction inps as [| v inps IH]; intros spec inp st; simpl.
  - intros [= <-] [H | H]; [tauto | exact H].
  - destruct v; try discriminate. intros E _.
    apply IH in E; [exact E | right; discriminate].
Qed.

Lemma add_input_set_raises (i L : nat) (inps : list pyvalue) :
  forall (spec : OpSpec) (inp : option pyvalue) (e : exn),
    i < L ->
    add_input_set i L inps spec inp = inl e ->
    (exists m, e = TypeError m) \/ (exists m, e = RuntimeError m).
Proof.
  induction inps as [| v inps IH]; intros spec inp e Hi; simpl.
  - discriminate.
  - destruct v; try (intros [= <-]; eauto).
    destruct (Nat.eqb_spec (List.length l) L) as [El | Nl]; simpl;
      [| intros [= <-]; eauto].
    destruct (nth_error l i) as [x |] eqn:N;
      [| apply nth_error_None in N; lia].
    destruct x; try (intros [= <-]; eauto). now apply IH.
Qed.

Lemma add_input_set_binds (i L : nat) (inps : list pyvalue) :
  forall (spec : OpSpec) (inp : option pyvalue) (st : loop_state),
    add_input_set i L inps spec inp = inr st ->
    inps <> [] \/ inp <> None -> snd st <> None.
Proof.
  induction inps as [| v inps IH]; intros spec inp st; simpl.
  - intros [= <-] [H | H]; [tauto | exact H].
  - destruct v; try discriminate.
    destruct (negb (Nat.eqb (List.length l) L)); [discriminate |].
    destruct (nth_error l i) as [x |]; [| discriminate].
    destruct x; try discriminate. intros E _.
    apply IH in E; [exact E | right; discriminate].
Qed.

Lemma add_input_sets_raises (L : nat) (inps : list pyvalue)
      (idx : list nat) :
  forall (spec : OpSpec) (inp : option pyvalue) (e : exn),
    Forall (fun i => i < L) idx ->
    add_input_sets idx L inps spec inp = inl e ->
    (exists m, e = TypeError m) \/ (exists m, e = RuntimeError m).
Proof.
  induction idx as [| i idx IH]; intros spec inp e F; simpl.
  - discriminate.
  - inversion F as [| ? ? Hi F']; subst.
    destruct (add_input_set i L inps spec inp) as [e' | st] eqn:E; simpl.
    + intros [= <-]. eapply add_input_set_raises; eauto.
    + now apply IH.
Qed.

Lemma add_input_sets_binds (L : nat) (inps : list pyvalue)
      (idx : list nat) :
  forall (spec : OpSpec) (inp : option pyvalue) (st : loop_state),
    add_input_sets idx L inps spec inp = inr st ->
    (idx <> [] /\ inps <> []) \/ inp <> None -> snd st <> None.
Proof.
  induction idx as [| i idx IH]; intros spec inp st; simpl.
  - intros [= <-] [[H _] | H]; [tauto | exact H].
  - destruct (add_input_set i L inps spec inp) as [e' | st1] eqn:E; simpl;
      [discriminate |].
    intros E2 H. apply IH in E2; [exact E2 |]. right.
    eapply add_input_set_binds; [exact E |]. tauto.
Qed.

Lemma add_argument_inputs_raises (kw : list (string * pyvalue)) :
  forall (inp : option pyvalue) (spec : OpSpec) (ins : list pyvalue)
         (e : exn),
    add_argument_inputs kw inp spec ins = inl e ->
    (exists m, e = TypeError m /\ inp <> None) \/
    (e = UnboundLocalError "inp" /\ inp = None).
Proof.
  induction kw as [| [k v] kw IH]; intros inp spec ins e; simpl.
  - discriminate.
  - destruct (String.eqb k "name"); [apply IH |].
    destruct v; try apply IH;
      (destruct inp; intros [= <-];
       [left; eexists; split; [reflexivity | discriminate] | right; auto]).
Qed.

Lemma add_argument_inputs_accepts (kw : list (string * pyvalue)) :
  forall (inp : option pyvalue) (spec : OpSpec) (ins : list pyvalue)
         (r : OpSpec * list pyvalue),
    add_argument_inputs kw inp spec ins = inr r ->
    forall k v, In (k, v) kw -> k <> "name" -> is_tensor v = true.
Proof.
  induction kw as [| [k v] kw IH]; intros inp spec ins r E k' v' I N;
    simpl in *; [tauto |].
  destruct I as [[= -> ->] | I].
  - apply String.eqb_neq in N. rewrite N in E.
    destruct v'; try reflexivity; destruct inp; discriminate E.
  - destruct (String.eqb k "name"); [eapply IH; eauto |].
    destruct v; try (destruct inp; discriminate E). eapply IH; eauto.
Qed.

(** X7: the construction of an instance raises nothing but [TypeError],
    [RuntimeError] and [UnboundLocalError]; [RuntimeError] only when the
    first positional input is a list that is not empty, and
    [UnboundLocalError] only when there is no positional input or the first
    one is an empty list. *)
Theorem construction_raises (id : nat) (inps : list pyvalue) (op : Op)
        (kwargs : list (string * pyvalue)) (e : exn) :
  OperatorInstance_fill id inps op kwargs = inl e ->
  (exists m, e = TypeError m) \/
  (exists m l0 rest,
      e = RuntimeError m /\ inps = PyList l0 :: rest /\ l0 <> []) \/
  (e = UnboundLocalError "inp" /\
   (inps = [] \/ exists rest, inps = PyList [] :: rest)).
Proof.
  unfold OperatorInstance_fill.
  destruct (classify_inputs inps (op_spec op)) as [e1 | st] eqn:C; simpl.
  - intros [= <-]. unfold classify_inputs in C.
    destruct inps as [| v rest]; [discriminate |].
    destruct v; try (injection C as <-; eauto).
    + destruct (add_input_sets _ _ _ _ _) as [e2 | st] eqn:E; simpl in C;
        [| discriminate].
      injection C as <-. pose proof E as E0.
      apply add_input_sets_raises in E.
      * destruct E as [T | [m R]]; [now left |].
        right; left. exists m, l, rest. repeat split; auto.
        intros ->. simpl in E0. discriminate E0.
      * apply Forall_forall. intros i Hi. apply in_seq in Hi. lia.
    + apply add_inputs_raises in C. now left.
  - destruct (add_argument_inputs kwargs (snd st) (fst st) inps)
      as [e2 | r] eqn:A; simpl; [| discriminate].
    intros [= <-]. apply add_argument_inputs_raises in A.
    destruct A as [(m & -> & _) | [-> N]]; [left; eauto |].
    right; right. split; [reflexivity |].
    unfold classify_inputs in C.
    destruct inps as [| v rest]; [now left |]. right.
    destruct v; try discriminate C.
    + destruct (add_input_sets _ _ _ _ _) as [e3 | st3] eqn:E; simpl in C;
        [discriminate |].
      injection C as <-. simpl in N.
      destruct l as [| x l]; [eauto |].
      apply add_input_sets_binds in E; [contradiction |].
      left. split; discriminate.
    + apply add_inputs_binds in C; [contradiction | left; discriminate].
Qed.

Lemma add_inputs_frame (inps : list pyvalue) :
  forall (spec : OpSpec) (inp : option pyvalue) (st : loop_state),
    add_inputs inps spec inp = inr st ->
    kind_name (fst st) = kind_name spec /\
    argument_inputs (fst st) = argument_inputs spec /\
    outputs (fst st) = outputs spec.
Proof.
  induction inps as [| v inps IH]; intros spec inp st; simpl.
  - intros [= <-]. auto.
  - destruct v; try discriminate. intros E. apply IH in E. exact E.
Qed.

Lemma add_input_set_frame (i L : nat) (inps : list pyvalue) :
  forall (spec : OpSpec) (inp : option pyvalue) (st : loop_state),
    add_input_set i L inps spec inp = inr st ->
    kind_name (fst st) = kind_name spec /\
    argument_inputs (fst st) = argument_inputs spec /\
    outputs (fst st) = outputs spec.
Proof.
  induction inps as [| v inps IH]; intros spec inp st; simpl.
  - intros [= <-]. auto.
  - destruct v; try discriminate.
    destruct (negb (Nat.eqb (List.length l) L)); [discriminate |].
    destruct (nth_error l i) as [x |]; [| discriminate].
    destruct x; try discriminate. intros E. apply IH in E. exact E.
Qed.

Lemma add_input_sets_frame (L : nat) (inps : list pyvalue)
      (idx : list nat) :
  forall (spec : OpSpec) (inp : option pyvalue) (st : loop_state),
    add_input_sets idx L inps spec inp = inr st ->
    kind_name (fst st) = kind_name spec /\
    argument_inputs (fst st) = argument_inputs spec /\
    outputs (fst st) = outputs spec.
Proof.
  induction idx as [| i idx IH]; intros spec inp st; simpl.
  - intros [= <-]. auto.
  - destruct (add_input_set i L inps spec inp) as [e | st1] eqn:E; simpl;
      [discriminate |].
    intros E2. apply IH in E2. apply add_input_set_frame in E.
    destruct E as (A & B & C), E2 as (A2 & B2 & C2).
    rewrite A2, B2, C2. auto.
Qed.

Lemma classify_inputs_frame (inps : list pyvalue) (spec : OpSpec)
      (st : loop_state) :
  classify_inputs inps spec = inr st ->
  kind_name (fst st) = kind_name spec /\
  argument_inputs (fst st) = argument_inputs spec /\
  outputs (fst st) = outputs spec.
Proof.
  unfold classify_inputs. destruct inps as [| v rest].
  - intros [= <-]. auto.
  - destruct v; try discriminate.
    + destruct (add_input_sets _ _ _ _ _) as [e | st1] eqn:E; simpl;
        [discriminate |].
      intros [= <-]. simpl. eapply add_input_sets_frame, E.
    + apply add_inputs_frame.
Qed.

Lemma OperatorInstance_fill_outputs (id : nat) (inps : list pyvalue)
      (op : Op) (kw : list (string * pyvalue)) (inst : OperatorInstance) :
  OperatorInstance_fill id inps op kw = inr inst ->
  outputs (inst_spec inst) = outputs (op_spec op).
Proof.
  unfold OperatorInstance_fill.
  destruct (classify_inputs inps (op_spec op)) as [e1 | [s1 i1]] eqn:C;
    simpl; [discriminate |].
  destruct (add_argument_inputs kw i1 s1 inps) as [e2 | r] eqn:A;
    simpl; [discriminate |].
  intros [= <-]. simpl.
  pose proof (add_argument_inputs_accepts _ _ _ _ _ A) as K.
  destruct (add_argument_inputs_handles kw i1 s1 inps K)
    as (s2 & E2 & _ & _ & _ & O2).
  rewrite E2 in A. injection A as <-. simpl.
  apply classify_inputs_frame in C. simpl in C. destruct C as (_ & _ & CO).
  now rewrite O2, CO.
Qed.

(** X8: when the construction returns normally, every keyword other than
    [name] carried a handle; the argument inputs of the spec are those of
    the operator's spec followed by (key, name of the handle) for these
    keywords, in their order; the inputs of the instance are the positional
    inputs followed by these handles; the spec has the outputs the
    operator's spec had and the instance has none; its id is the one it was
    given and its operator the one it was built for. *)
Theorem construction_accepts (id : nat) (inps : list pyvalue) (op : Op)
        (kwargs : list (string * pyvalue)) (inst : OperatorInstance) :
  OperatorInstance_fill id inps op kwargs = inr inst ->
  (forall k v, In (k, v) kwargs -> k <> "name" -> is_tensor v = true) /\
  argument_inputs (inst_spec inst)
  = (argument_inputs (op_spec op)
       ++ map (fun kv => (fst kv, tensor_name (snd kv)))
              (argument_items kwargs))%list /\
  inst_inputs inst = (inps ++ map snd (argument_items kwargs))%list /\
  outputs (inst_spec inst) = outputs (op_spec op) /\
  inst_outputs inst = [] /\ inst_id inst = id /\ inst_op inst = op.
Proof.
  intros F.
  destruct (OperatorInstance_fill_fresh _ _ _ _ _ F) as (Hid & Hout & Hop).
  unfold OperatorInstance_fill in F.
  destruct (classify_inputs inps (op_spec op)) as [e1 | [s1 i1]] eqn:C;
    simpl in F; [discriminate |].
  destruct (add_argument_inputs kwargs i1 s1 inps) as [e2 | r] eqn:A;
    simpl in F; [discriminate |].
  injection F as <-. simpl.
  pose proof (add_argument_inputs_accepts _ _ _ _ _ A) as K.
  destruct (add_argument_inputs_handles kwargs i1 s1 inps K)
    as (s2 & E2 & A2 & I2 & G2 & O2).
  rewrite E2 in A. injection A as <-. simpl.
  apply classify_inputs_frame in C. simpl in C. destruct C as (_ & CA & CO).
  rewrite A2, O2, CA, CO. repeat split; auto.
Qed.

End ConstructionErrors.

(** ** Names, ids and what a call returns *)

Section CallsAndIds.

Lemma OperatorInstance_fill_name (id : nat) (inps : list pyvalue) (op : Op)
      (kw : list (string * pyvalue)) (inst : OperatorInstance) :
  OperatorInstance_fill id inps op kw = inr inst ->
  inst_name inst
  = match dict_get "name" kw with
    | Some v => v
    | None => PyStr ("__" ++ op_type_name op ++ "_" ++ str id)
    end.
Proof.
  unfold OperatorInstance_fill, rbind.
  destruct (classify_inputs _ _) as [e | st]; [discriminate |].
  destruct (add_argument_inputs _ _ _ _) as [e | r]; [discriminate |].
  intros [= <-]. reflexivity.
Qed.

(** X9: the name an instance gets when the call gives none tells the
    class of its operator and its id: two instances built without a [name]
    keyword that have the same name have the same id and operators of the
    same class name; a [name] keyword is taken as it is. *)
Theorem default_names_differ (id1 id2 : nat) (inps1 inps2 : list pyvalue)
        (op1 op2 : Op) (kw1 kw2 : list (string * pyvalue))
        (i1 i2 : OperatorInstance) :
  OperatorInstance_fill id1 inps1 op1 kw1 = inr i1 ->
  OperatorInstance_fill id2 inps2 op2 kw2 = inr i2 ->
  (dict_get "name" kw1 = None -> dict_get "name" kw2 = None ->
   inst_name i1 = inst_name i2 ->
   id1 = id2 /\ op_type_name op1 = op_type_name op2) /\
  (forall v, dict_get "name" kw1 = Some v -> inst_name i1 = v).
Proof.
  intros F1 F2.
  apply OperatorInstance_fill_name in F1, F2. split.
  - intros N1 N2 E. rewrite F1, F2, N1, N2 in E.
    injection E as E.
    apply (split_at_last "_"%char _ _ (str id1) (str id2)) in E;
      try apply str_no_underscore.
    destruct E as [-> E]. apply str_inj in E. auto.
  - intros v N. now rewrite F1, N.
Qed.

(** X10: a call that passes the arity check, whose instance is constructed
    (no keyword names a parameter of [__init__], and [__init__] returns)
    and whose descriptor gives the count [n], returns the one handle itself
    when [n] is 1 and otherwise the list of the handles, which is empty
    when [n] is zero or negative; the id is used up. *)
Theorem call_return_convention (self : Op) (inps : list pyvalue)
        (kwargs : list (string * pyvalue)) (c : nat)
        (inst : OperatorInstance) (n : Z) :
  (MinNumInput (op_schema self) <= Z.of_nat (List.length inps)
   <= MaxNumInput (op_schema self))%Z ->
  accepts_keywords init_parameters kwargs = true ->
  OperatorInstance_fill c inps self kwargs = inr inst ->
  CalculateOutputs (op_schema self) (inst_spec inst) = inr n ->
  let mk := handle (op_type_name self) c
                   (output_device_of (op_device self)) in
  (n = 1%Z ->
   Operator_call self inps kwargs c = (inr (PyTensor (mk 0)), S c)) /\
  (n <> 1%Z ->
   Operator_call self inps kwargs c
   = (inr (PyList (map PyTensor (map mk (range n)))), S c)) /\
  ((n <= 0)%Z ->
   Operator_call self inps kwargs c = (inr (PyList []), S c)).
Proof.
  intros A B F C mk.
  apply arity_violated_false in A.
  destruct (OperatorInstance_fill_fresh _ _ _ _ _ F) as (Hid & Hout & Hop).
  assert (E : Operator_call self inps kwargs c
              = (call_result
                   (fold_left (mint_output (output_device_of (op_device self)))
                              (range n) inst), S c)).
  { unfold Operator_call, Operator_call_instance, bind. rewrite A.
    rewrite (OperatorInstance_init_bound _ _ _ _ B), F. unfold lift.
    rewrite <- Hop in C. rewrite (generate_outputs_run _ _ C), Hop.
    reflexivity. }
  destruct (fold_mint (output_device_of (op_device self)) (range n) inst)
    as (_ & O & _).
  rewrite Hout, Hop, Hid in O. simpl in O. fold mk in O.
  assert (R : n <> 1%Z ->
              Operator_call self inps kwargs c
              = (inr (PyList (map PyTensor (map mk (range n)))), S c)).
  { intros N. rewrite E. unfold call_result. rewrite O.
    rewrite length_map. unfold range at 1. rewrite length_seq.
    destruct (Nat.eqb_spec (Z.to_nat n) 1) as [H | _]; [lia | reflexivity]. }
  split; [| split].
  - intros ->. rewrite E. unfold call_result. rewrite O. reflexivity.
  - exact R.
  - intros N. rewrite R by lia. unfold range.
    replace (Z.to_nat n) with 0 by lia. reflexivity.
Qed.

Lemma fold_reader_spec (dev : string)
      (es : list (nat * (string * pyvalue))) :
  forall st : reader_loop,
    let st' := fold_left (reader_step dev) es st in
    outputs (inst_spec (rl_instance st'))
    = (outputs (inst_spec (rl_instance st))
         ++ map (fun i => (output_name "_TFRecordReader"
                             (inst_id (rl_instance st)) i, dev))
                (map fst es))%list /\
    same_node (rl_instance st) (rl_instance st').
Proof.
  induction es as [| e es IH]; intros st; simpl.
  - rewrite app_nil_r. auto using same_node_refl.
  - destruct (IH (reader_step dev st e)) as [O N]. split.
    + rewrite O. simpl. now rewrite <- app_assoc.
    + eapply same_node_trans; [| exact N].
      unfold same_node, reader_step; simpl; intuition.
Qed.

(** The instance a call builds has the id found in the counter. *)
Lemma run_call_id (cl : call) (c c' : nat) (g : OperatorInstance) :
  run_call cl c = (inr g, c') ->
  c' = S c /\ inst_id g = c /\
  (forall t, In t (inst_outputs g) -> source t = c).
Proof.
  intros R.
  destruct (run_call_handles cl c) as [_ B].
  rewrite R in B. destruct (B g eq_refl) as (Hc & kind & dev & idx & N & O).
  simpl in Hc. split; [exact Hc |]. split.
  - destruct cl as [self inps kw | self inps kw]; simpl in R.
    + unfold Operator_call_instance in R.
      destruct (arity_violated _ _); [discriminate |].
      unfold bind in R. init_in_hyp inps self kw c A R.
      destruct (OperatorInstance_fill c inps self kw) as [e | a] eqn:F;
        [discriminate |].
      unfold lift in R. injection R as G _.
      apply OperatorInstance_fill_fresh in F. destruct F as (Hid & _).
      apply generate_outputs_inv in G. destruct G as (n & _ & ->).
      destruct (fold_mint (output_device_of (op_device (inst_op a)))
                          (range n) a) as ((I1 & _) & _).
      now rewrite I1.
    + unfold TFRecordReader_call_instance in R.
      destruct (arity_violated _ _); [discriminate |].
      unfold bind in R. init_in_hyp inps (reader_op self) kw c A R.
      destruct (OperatorInstance_fill c inps (reader_op self) kw)
        as [e | a] eqn:F; [discriminate |].
      unfold lift, ret in R. simpl in R. injection R as <- _.
      apply OperatorInstance_fill_fresh in F. destruct F as (Hid & _).
      destruct (fold_reader (tfr_device self) (enumerate (tfr_features self))
                  (mkReaderLoop a [] [] [])) as [I1 _].
      simpl in I1. simpl. now rewrite I1.
  - intros t I. rewrite O in I. apply in_map_iff in I.
    destruct I as (i & <- & _). reflexivity.
Qed.

(** X11: the instance a call builds, of an operator or of a reader, has
    the id the call found in the counter, which then is one further; each
    of its handles names it as its source; the outputs of its spec are those
    of the spec of what was called followed by the (name, device) of its
    handles, in order; the names of its handles are pairwise different. *)
Theorem built_instance_outputs (cl : call) (c c' : nat)
        (g : OperatorInstance) :
  run_call cl c = (inr g, c') ->
  c' = S c /\ inst_id g = c /\
  (forall t, In t (inst_outputs g) -> source t = inst_id g) /\
  outputs (inst_spec g)
  = (outputs (call_spec cl)
       ++ map (fun t => (name t, device t)) (inst_outputs g))%list /\
  NoDup (map name (inst_outputs g)).
Proof.
  intros R.
  destruct (run_call_handles cl c) as [_ B].
  rewrite R in B. destruct (B g eq_refl) as (Hc & kind & dev & idx & N & O).
  simpl in Hc. split; [exact Hc |].
  assert (S1 : forall t, In t (inst_outputs g) -> source t = c).
  { intros t I. rewrite O in I. apply in_map_iff in I.
    destruct I as (i & <- & _). reflexivity. }
  destruct cl as [self inps kw | self inps kw]; simpl in R |- *.
  - unfold Operator_call_instance in R.
    destruct (arity_violated _ _); [discriminate |].
    unfold bind in R. init_in_hyp inps self kw c A R.
    destruct (OperatorInstance_fill c inps self kw) as [e | a] eqn:F;
      [discriminate |].
    unfold lift in R. injection R as G _.
    destruct (OperatorInstance_fill_fresh _ _ _ _ _ F) as (Hid & Oi & Hop).
    pose proof (OperatorInstance_fill_outputs _ _ _ _ _ F) as Os.
    apply generate_outputs_inv in G. destruct G as (n & _ & ->).
    destruct (fold_mint (output_device_of (op_device (inst_op a)))
                        (range n) a) as ((I1 & _) & O1 & S).
    rewrite I1, Hid. split; [reflexivity |].
    split; [intros t I; now apply S1 |]. split.
    + rewrite S, O1, Os, Oi. simpl. rewrite map_map. reflexivity.
    + rewrite O. now apply handle_names_NoDup.
  - unfold TFRecordReader_call_instance in R.
    destruct (arity_violated _ _); [discriminate |].
    unfold bind in R. init_in_hyp inps (reader_op self) kw c A R.
    destruct (OperatorInstance_fill c inps (reader_op self) kw)
      as [e | a] eqn:F; [discriminate |].
    unfold lift, ret in R. simpl in R. injection R as <- _.
    destruct (OperatorInstance_fill_fresh _ _ _ _ _ F) as (Hid & Oi & Hop).
    pose proof (OperatorInstance_fill_outputs _ _ _ _ _ F) as Os.
    destruct (fold_reader (tfr_device self) (enumerate (tfr_features self))
                (mkReaderLoop a [] [] [])) as [I1 O1].
    destruct (fold_reader_spec (tfr_device self)
                (enumerate (tfr_features self))
                (mkReaderLoop a [] [] [])) as [S _].
    simpl in I1, O1, S. simpl.
    rewrite I1, Hid. split; [reflexivity |].
    split; [intros t I; apply (S1 t); exact I |]. split.
    + rewrite S, O1, Os, Oi, Hid. simpl. rewrite !map_map. reflexivity.
    + simpl in O. rewrite O. now apply handle_names_NoDup.
Qed.

Lemma run_call_counter (cl : call) (c : nat) :
  snd (run_call cl c) = if enters_init cl then S c else c.
Proof.
  destruct cl as [self inps kw | self inps kw]; simpl.
  - unfold Operator_call_instance.
    destruct (arity_violated _ _); simpl; [reflexivity |].
    unfold bind. init_in_goal inps self kw c A; [| reflexivity].
    destruct (OperatorInstance_fill _ _ _ _); reflexivity.
  - unfold TFRecordReader_call_instance.
    destruct (arity_violated _ _); simpl; [reflexivity |].
    unfold bind. init_in_goal inps (reader_op self) kw c A; [| reflexivity].
    destruct (OperatorInstance_fill _ _ _ _); reflexivity.
Qed.

Lemma call_session_counter_le (calls : list call) :
  forall c : nat, c <= snd (call_session calls c).
Proof.
  induction calls as [| cl calls IH]; intros c; simpl; [lia |].
  specialize (IH (snd (run_call cl c))). rewrite run_call_counter in *.
  destruct (enters_init cl); lia.
Qed.

(** X12: ids are used up one by one by the constructions that enter
    [__init__]: after a run of constructions the counter is further by the
    number of those whose keywords name no parameter of [__init__], whether
    [__init__] raised or not; after a run of calls it is further by the
    number of calls that passed the arity check with such keywords.  The
    other constructions and calls leave the counter alone. *)
Theorem ids_used_up :
  (forall (reqs : list request) (c : nat),
      snd (session reqs c) = c + List.length (filter takes_id reqs)) /\
  (forall (calls : list call) (c : nat),
      snd (call_session calls c)
      = c + List.length (filter enters_init calls)).
Proof.
  split.
  - induction reqs as [| [[inps op] kw] reqs IH]; intros c; simpl; [lia |].
    rewrite IH, OperatorInstance_init_counter. unfold takes_id. simpl.
    destruct (accepts_keywords init_parameters kw); simpl; lia.
  - induction calls as [| cl calls IH]; intros c; simpl; [lia |].
    rewrite IH, run_call_counter.
    destruct (enters_init cl); simpl; lia.
Qed.

Lemma call_session_ids (calls : list call) :
  forall (c p : nat) (g : OperatorInstance),
    nth_error (fst (call_session calls c)) p = Some (inr g) ->
    c <= inst_id g < snd (call_session calls c).
Proof.
  induction calls as [| cl calls IH]; intros c p g; simpl.
  - destruct p; discriminate.
  - pose proof (call_session_counter_le calls (snd (run_call cl c))) as U.
    destruct p as [| p]; simpl.
    + intros H. destruct (run_call cl c) as [r c1] eqn:R. simpl in *.
      injection H as ->. apply run_call_id in R.
      destruct R as (-> & -> & _). lia.
    + intros H. apply IH in H. rewrite run_call_counter in *.
      destruct (enters_init cl); simpl; lia.
Qed.

(** X13: over the calls of a session an id names one instance: the
    instances built by two different calls have different ids, the later
    call the greater one, so two handles with the same source come from the
    same call. *)
Theorem source_identifies_instance (calls : list call) (c p q : nat)
        (g g' : OperatorInstance) :
  nth_error (fst (call_session calls c)) p = Some (inr g) ->
  nth_error (fst (call_session calls c)) q = Some (inr g') ->
  (p < q -> inst_id g < inst_id g') /\
  (forall t t', In t (inst_outputs g) -> In t' (inst_outputs g') ->
                source t = source t' -> p = q).
Proof.
  assert (Lt : forall calls c p q g g',
             nth_error (fst (call_session calls c)) p = Some (inr g) ->
             nth_error (fst (call_session calls c)) q = Some (inr g') ->
             p < q -> inst_id g < inst_id g').
  { clear. induction calls as [| cl calls IH]; intros c p q g g'; simpl.
    - destruct p; discriminate.
    - destruct p as [| p], q as [| q]; simpl; try lia.
      + intros H H' _. destruct (run_call cl c) as [r c1] eqn:R.
        simpl in *. injection H as ->. apply run_call_id in R.
        destruct R as (-> & -> & _). apply call_session_ids in H'. lia.
      + intros H H' L. apply (IH _ _ _ _ _ H H'). lia. }
  assert (Sr : forall calls c p g t,
             nth_error (fst (call_session calls c)) p = Some (inr g) ->
             In t (inst_outputs g) -> source t = inst_id g).
  { clear. induction calls as [| cl calls IH]; intros c p g t; simpl.
    - destruct p; discriminate.
    - destruct p as [| p]; simpl.
      + intros H. destruct (run_call cl c) as [r c1] eqn:R.
        simpl in *. injection H as ->. apply run_call_id in R.
        destruct R as (_ & -> & S). apply S.
      + apply IH. }
  intros H H'. split; [now apply (Lt calls c) |].
  intros t t' I I' E.
  rewrite (Sr _ _ _ _ _ H I), (Sr _ _ _ _ _ H' I') in E.
  destruct (Nat.lt_trichotomy p q) as [L | [L | L]]; [| exact L |].
  - pose proof (Lt _ _ _ _ _ _ H H' L). lia.
  - pose proof (Lt _ _ _ _ _ _ H' H L). lia.
Qed.

End CallsAndIds.

(** ** The operator a factory class constructs *)

Lemma dict_set_fresh {V : Type} (k : string) (v : V)
      (d : list (string * V)) :
  ~ In k (map fst d) -> dict_set k v d = (d ++ [(k, v)])%list.
Proof.
  induction d as [| [k' v'] d IH]; simpl; intros N; [reflexivity |].
  destruct (String.eqb_spec k k') as [-> | _]; [tauto |].
  rewrite IH; [reflexivity | tauto].
Qed.

Section MoreFactory.

Variable GetSchema : string -> result Schema.

(** Storing a dict whose keys the spec does not have yet appends it. *)
Lemma store_all_fresh (kw : list (string * pyvalue)) :
  forall spec : OpSpec,
    is_dict kw ->
    (forall k, In k (map fst kw) -> ~ In k (map fst (args spec))) ->
    args (store_all kw spec) = (args spec ++ kw)%list.
Proof.
  unfold store_all, is_dict.
  induction kw as [| [k v] kw IH]; intros spec N D; simpl in *.
  - now rewrite app_nil_r.
  - inversion N as [| ? ? Hn Hd]; subst.
    rewrite IH; simpl.
    + rewrite dict_set_fresh by (apply D; now left).
      now rewrite <- app_assoc.
    + exact Hd.
    + intros k' I. rewrite dict_set_fresh by (apply D; now left).
      rewrite map_app, in_app_iff. simpl. intros [H | [H | []]].
      * apply (D k'); [now right | exact H].
      * subst k'. contradiction.
Qed.

Lemma Operator_init_inv (name default_device : string)
      (kwargs : list (string * pyvalue)) (op : Op) :
  Operator_init GetSchema name default_device kwargs = inr op ->
  (forall k, ~ In (k, PyList []) kwargs) /\
  exists schema,
    GetSchema name = inr schema /\
    op = mkOp name
              (store_all kwargs
                 (match dict_get "device" kwargs with
                  | Some _ => new_OpSpec name
                  | None => AddArg "device" (PyStr default_device)
                                   (new_OpSpec name)
                  end))
              schema
              (match dict_get "device" kwargs with
               | Some d => d
               | None => PyStr default_device
               end).
Proof.
  unfold Operator_init, rbind.
  destruct (GetSchema name) as [e | schema]; [discriminate |].
  destruct (store_arguments kwargs _) as [e | spec'] eqn:E; [discriminate |].
  intros [= <-].
  assert (N : forall k, ~ In (k, PyList []) kwargs).
  { intros k I.
    rewrite store_arguments_empty_list in E by eauto. discriminate. }
  split; [exact N |]. exists schema. split; [reflexivity |].
  rewrite store_arguments_no_empty_list in E by exact N.
  injection E as <-.
  destruct (dict_get "device" kwargs); reflexivity.
Qed.

(** X14: an operator that was constructed carries the name of its class,
    the schema the registry has for that name, and a spec of that kind
    without inputs, argument inputs or outputs; when the keywords are a
    dict, the argument [device] of the spec is the operator's device,
    whether it was given or taken from the factory.  For a name the
    registry does not know, the construction raises what the registry
    raises, whatever the keywords are. *)
Theorem operator_init_result (name default_device : string)
        (kwargs : list (string * pyvalue)) :
  (forall e, GetSchema name = inl e ->
             Operator_init GetSchema name default_device kwargs = inl e) /\
  (forall op,
      Operator_init GetSchema name default_device kwargs = inr op ->
      op_type_name op = name /\
      GetSchema name = inr (op_schema op) /\
      kind_name (op_spec op) = name /\
      inputs (op_spec op) = [] /\
      argument_inputs (op_spec op) = [] /\
      outputs (op_spec op) = [] /\
      (is_dict kwargs ->
       dict_get "device" (args (op_spec op)) = Some (op_device op))).
Proof.
  split.
  - intros e E. unfold Operator_init, rbind. now rewrite E.
  - intros op H. apply Operator_init_inv in H.
    destruct H as (_ & schema & S & ->). simpl.
    destruct (store_all_kind kwargs
                (match dict_get "device" kwargs with
                 | Some _ => new_OpSpec name
                 | None => AddArg "device" (PyStr default_device)
                                  (new_OpSpec name)
                 end)) as (K & I & A & O).
    rewrite K, I, A, O.
    repeat split; try (destruct (dict_get "device" kwargs); reflexivity);
      try exact S.
    intros D. rewrite store_all_get by exact D.
    destruct (dict_get "device" kwargs); reflexivity.
Qed.

(** X15: the arguments of the spec of a constructed operator are the
    keywords as given, in their order, after the factory's device when no
    [device] keyword was given. *)
Theorem operator_init_arguments (name default_device : string)
        (kwargs : list (string * pyvalue)) (op : Op) :
  is_dict kwargs ->
  Operator_init GetSchema name default_device kwargs = inr op ->
  (dict_get "device" kwargs = None ->
   args (op_spec op) = ("device", PyStr default_device) :: kwargs) /\
  (dict_get "device" kwargs <> None -> args (op_spec op) = kwargs).
Proof.
  intros D H. apply Operator_init_inv in H.
  destruct H as (_ & schema & _ & ->). simpl. split.
  - intros N. rewrite N. rewrite store_all_fresh; [reflexivity | exact D |].
    simpl. intros k I [E | []]. subst k.
    apply in_map_iff in I. destruct I as ([k' v] & E & I).
    simpl in E. subst k'.
    rewrite (dict_get_In _ _ _ D I) in N. discriminate.
  - intros N. destruct (dict_get "device" kwargs); [| tauto].
    rewrite store_all_fresh; [reflexivity | exact D |].
    simpl. tauto.
Qed.

(** X16: the handles a call of a constructed operator returns are on
    "gpu" when the operator's device, the [device] keyword of the
    construction or else the factory's device, is "gpu" or "mixed", and on
    "cpu" for any other device. *)
Theorem call_output_device (name default_device : string)
        (kwargs0 : list (string * pyvalue)) (op : Op)
        (inps : list pyvalue) (kwargs : list (string * pyvalue))
        (c c' : nat) (g : OperatorInstance) :
  Operator_init GetSchema name default_device kwargs0 = inr op ->
  Operator_call_instance op inps kwargs c = (inr g, c') ->
  let d := match dict_get "device" kwargs0 with
           | Some v => v
           | None => PyStr default_device
           end in
  forall t, In t (inst_outputs g) ->
    (d = PyStr "gpu" \/ d = PyStr "mixed" -> device t = "gpu") /\
    (d <> PyStr "gpu" -> d <> PyStr "mixed" -> device t = "cpu").
Proof.
  intros H R d t I.
  apply Operator_init_inv in H. destruct H as (_ & schema & _ & Eop).
  assert (Ed : op_device op = d) by (rewrite Eop; reflexivity).
  unfold Operator_call_instance in R.
  destruct (arity_violated _ _); [discriminate |].
  unfold bind in R. init_in_hyp inps op kwargs c A R.
  destruct (OperatorInstance_fill c inps op kwargs) as [e | a] eqn:F;
    [discriminate |].
  unfold lift in R. injection R as G _.
  destruct (OperatorInstance_fill_fresh _ _ _ _ _ F) as (Hid & Hout & Hop).
  apply generate_outputs_inv in G. destruct G as (n & _ & ->).
  destruct (fold_mint (output_device_of (op_device (inst_op a)))
                      (range n) a) as (_ & O & _).
  rewrite O, Hout, Hop, Ed in I. simpl in I.
  apply in_map_iff in I. destruct I as (i & <- & _). simpl.
  split; [apply output_device_of_gpu | apply output_device_of_cpu].
Qed.

(** X17: a reader is constructed whatever the values of its keywords
    are, an empty list included, when no keyword names a parameter of its
    [__init__] and the registry knows "_TFRecordReader"; with such keywords
    and a registry that does not know it, the construction raises what the
    registry raises; a keyword that names a parameter is refused with
    [TypeError], whatever the registry knows.  The paths of a reader are
    lists, the given value alone in a new list unless a list was given; its
    device is "cpu"; its spec is of the kind "_TFRecordReader" and, for
    keywords that are a dict, has the arguments [path], [index_path] and
    then the keywords in their order. *)
Theorem reader_init_result (path index_path : pyvalue)
        (features kwargs : list (string * pyvalue)) :
  (accepts_keywords reader_parameters kwargs = false ->
   exists m,
     TFRecordReader_init GetSchema path index_path features kwargs
     = inl (TypeError m)) /\
  (accepts_keywords reader_parameters kwargs = true ->
   (forall e, GetSchema "_TFRecordReader" = inl e ->
      TFRecordReader_init GetSchema path index_path features kwargs
      = inl e) /\
   (forall schema, GetSchema "_TFRecordReader" = inr schema ->
      exists r,
        TFRecordReader_init GetSchema path index_path features kwargs
        = inr r /\
        tfr_schema r = schema /\ tfr_features r = features /\
        tfr_device r = "cpu" /\
        kind_name (tfr_spec r) = "_TFRecordReader" /\
        is_list (tfr_path r) = true /\ is_list (tfr_index_path r) = true /\
        (is_list path = true -> tfr_path r = path) /\
        (is_list path = false -> tfr_path r = PyList [path]) /\
        (is_list index_path = true -> tfr_index_path r = index_path) /\
        (is_list index_path = false ->
         tfr_index_path r = PyList [index_path]) /\
        (is_dict kwargs ->
         args (tfr_spec r)
         = ("path", tfr_path r) :: ("index_path", tfr_index_path r)
             :: kwargs))).
Proof.
  split.
  - intros A. destruct (bind_keywords_refuses _ _ A) as (k & _ & _ & E).
    unfold TFRecordReader_init, rbind. rewrite E. eauto.
  - intros A. pose proof (bind_keywords_accepts _ _ A) as B. split.
    + intros e E. unfold TFRecordReader_init, rbind. now rewrite B, E.
    + intros schema E. unfold TFRecordReader_init, rbind. rewrite B, E.
      eexists. split; [reflexivity |]. simpl.
      destruct (store_all_kind kwargs
                  (AddArg "index_path" (as_list index_path)
                     (AddArg "path" (as_list path)
                        (new_OpSpec "_TFRecordReader")))) as (K & _).
      rewrite K. simpl.
      repeat split;
        try (destruct path; simpl; congruence);
        try (destruct index_path; simpl; congruence).
      intros D. rewrite store_all_fresh; [reflexivity | exact D |].
      pose proof (accepts_keywords_spec _ _ A) as N.
      simpl. intros k I [Ek | [Ek | []]]; subst k;
        (eapply N; [| exact I]); simpl; tauto.
Qed.

End MoreFactory.

(** ** Calls of a reader *)

Section MoreReader.

Lemma enumerate_values {A : Type} (l : list A) :
  forall start, map snd (combine (seq start (List.length l)) l) = l.
Proof.
  induction l as [| x l IH]; intros start; simpl; [reflexivity |].
  now rewrite IH.
Qed.

Lemma fold_reader_maps (dev : string)
      (es : list (nat * (string * pyvalue))) :
  forall st : reader_loop,
    NoDup (map (fun e => fst (snd e)) es) ->
    (forall e, In e es -> ~ In (fst (snd e)) (map fst (rl_outputs st))) ->
    let st' := fold_left (reader_step dev) es st in
    rl_outputs st'
    = (rl_outputs st
         ++ map (fun e => (fst (snd e),
                           handle "_TFRecordReader"
                                  (inst_id (rl_instance st)) dev (fst e)))
                es)%list /\
    rl_feature_names st'
    = (rl_feature_names st ++ map (fun e => PyStr (fst (snd e))) es)%list /\
    rl_features st'
    = (rl_features st ++ map (fun e => snd (snd e)) es)%list.
Proof.
  induction es as [| e es IH]; intros st N D; simpl.
  - now rewrite !app_nil_r.
  - inversion N as [| ? ? Hn Hd]; subst.
    destruct (IH (reader_step dev st e)) as (O & Fn & Fs).
    + exact Hd.
    + intros e' I. simpl.
      rewrite dict_set_fresh by (apply (D e); now left).
      rewrite map_app, in_app_iff. simpl. intros [H | [H | []]].
      * apply (D e'); [now right | exact H].
      * apply Hn. rewrite H. apply in_map_iff. now exists e'.
    + rewrite O, Fn, Fs. simpl.
      rewrite dict_set_fresh by (apply (D e); now left).
      rewrite <- !app_assoc. auto.
Qed.

(** X18: a reader whose features are a dict, called with inputs within
    the bounds and accepted by the construction of the instance (no keyword
    names a parameter of [__init__], and [__init__] returns), returns the
    feature names, in the order of the features, each with the handle named
    after "_TFRecordReader", the id of the instance and the position of the
    feature, on the reader's device; these handles are the outputs of the
    instance; the spec gets [feature_names] and [features] as two lists in
    that order and keeps its other arguments.  The descriptor is not asked
    for a count. *)
Theorem reader_call_features (self : TFRecordReader) (inps : list pyvalue)
        (kwargs : list (string * pyvalue)) (c : nat)
        (inst : OperatorInstance) :
  (MinNumInput (tfr_schema self) <= Z.of_nat (List.length inps)
   <= MaxNumInput (tfr_schema self))%Z ->
  accepts_keywords init_parameters kwargs = true ->
  OperatorInstance_fill c inps (reader_op self) kwargs = inr inst ->
  is_dict (tfr_features self) ->
  let fs := tfr_features self in
  let mk := handle "_TFRecordReader" c (tfr_device self) in
  let outs := map (fun e => (fst (snd e), mk (fst e))) (enumerate fs) in
  exists inst',
    TFRecordReader_call_instance self inps kwargs c
    = (inr (outs, inst'), S c) /\
    TFRecordReader_call self inps kwargs c = (inr outs, S c) /\
    map fst outs = map fst fs /\
    map snd outs = map mk (seq 0 (List.length fs)) /\
    inst_outputs inst' = map mk (seq 0 (List.length fs)) /\
    dict_get "feature_names" (args (inst_spec inst'))
    = Some (PyList (map (fun f => PyStr (fst f)) fs)) /\
    dict_get "features" (args (inst_spec inst'))
    = Some (PyList (map snd fs)) /\
    (forall k, k <> "feature_names" -> k <> "features" ->
       dict_get k (args (inst_spec inst'))
       = dict_get k (args (inst_spec inst))).
Proof.
  intros A B F D fs mk outs.
  apply arity_violated_false in A.
  destruct (OperatorInstance_fill_fresh _ _ _ _ _ F) as (Hid & Hout & _).
  set (st0 := mkReaderLoop inst [] [] []).
  set (st := fold_left (reader_step (tfr_device self)) (enumerate fs) st0).
  assert (E : TFRecordReader_call_instance self inps kwargs c
              = (inr (rl_outputs st,
                      set_spec
                        (AddArg "features" (PyList (rl_features st))
                           (AddArg "feature_names"
                              (PyList (rl_feature_names st))
                              (inst_spec (rl_instance st))))
                        (rl_instance st)), S c)).
  { unfold TFRecordReader_call_instance, bind. rewrite A.
    rewrite (OperatorInstance_init_bound _ _ _ _ B), F. reflexivity. }
  assert (Vs : map (fun e : nat * (string * pyvalue) => snd e) (enumerate fs)
               = fs) by apply enumerate_values.
  assert (Ix : map (fun e : nat * (string * pyvalue) => fst e) (enumerate fs)
               = seq 0 (List.length fs)) by apply enumerate_indices.
  destruct (fold_reader_maps (tfr_device self) (enumerate fs) st0)
    as (O & Fn & Fs).
  { replace (map (fun e : nat * (string * pyvalue) => fst (snd e))
                 (enumerate fs))
      with (map fst (map (fun e : nat * (string * pyvalue) => snd e)
                         (enumerate fs))) by now rewrite map_map.
    rewrite Vs. exact D. }
  { intros e _ []. }
  destruct (fold_reader (tfr_device self) (enumerate fs) st0) as [_ Oi].
  destruct (fold_reader_spec (tfr_device self) (enumerate fs) st0)
    as [_ (_ & _ & _ & _ & _ & Ar & _)].
  fold st in O, Fn, Fs, Oi, Ar. simpl in O, Fn, Fs, Oi, Ar.
  rewrite Hid in O. rewrite Hid, Hout in Oi. simpl in Oi. fold mk in O, Oi.
  assert (Eo : rl_outputs st = outs) by exact O.
  rewrite Eo in E.
  eexists. split; [exact E |].
  split; [unfold TFRecordReader_call, bind; rewrite E; reflexivity |].
  split.
  { unfold outs. rewrite map_map. simpl.
    rewrite <- Vs at 2. now rewrite map_map. }
  split.
  { unfold outs. rewrite map_map. simpl. rewrite <- Ix. now rewrite map_map. }
  simpl. split; [rewrite Oi; unfold mk; now rewrite <- Ix |].
  split.
  { rewrite dict_get_set_other by discriminate.
    rewrite dict_get_set_same, Fn. do 2 f_equal.
    rewrite <- Vs at 2. now rewrite map_map. }
  split.
  { rewrite dict_get_set_same, Fs. do 2 f_equal.
    rewrite <- Vs at 2. now rewrite map_map. }
  intros k N1 N2. rewrite !dict_get_set_other by assumption.
  now rewrite Ar.
Qed.

(** X19: a reader called with fewer positional inputs than [MinNumInput]
    or more than [MaxNumInput] raises [ValueError]; the message names the
    class "TFRecordReader", the two bounds and the number received; no
    instance is constructed and the counter is as before. *)
Theorem reader_arity_check (self : TFRecordReader) (inps : list pyvalue)
        (kwargs : list (string * pyvalue)) (c : nat) :
  let n := List.length inps in
  let lo := MinNumInput (tfr_schema self) in
  let hi := MaxNumInput (tfr_schema self) in
  (Z.of_nat n < lo \/ hi < Z.of_nat n)%Z ->
  TFRecordReader_call self inps kwargs c
  = (inl (ValueError
            ("Operator TFRecordReader expects [" ++ strZ lo
               ++ "," ++ nl ++ spaces 16 ++ strZ hi
               ++ "] inputs, but received " ++ str n)), c).
Proof.
  intros n lo hi H. apply arity_violated_true in H.
  unfold TFRecordReader_call, TFRecordReader_call_instance, bind.
  now rewrite H.
Qed.

End MoreReader.

(** ** A keyword that is not a handle, after positional handles *)

Section MoreArgumentInputs.

Lemma add_inputs_binds_handle (inps : list pyvalue) :
  forall (spec : OpSpec) (inp : option pyvalue) (st : loop_state),
    add_inputs inps spec inp = inr st ->
    inps <> [] ->
    exists t, snd st = Some (PyTensor t).
Proof.
  induction inps as [| v inps IH]; intros spec inp st; simpl.
  - tauto.
  - destruct v; try discriminate. intros E _.
    destruct inps as [| w inps].
    + simpl in E. injection E as <-. simpl. eauto.
    + eapply IH; [exact E | discriminate].
Qed.

(** X21: after positional inputs that are all handles, at least one, the
    first keyword other than [name] whose value is not a handle makes the
    construction raise [TypeError]; the type the message gives is
    "TensorReference", that of the last positional input, whatever the
    value of the keyword is; the id is used up.  (No keyword names a
    parameter of [__init__], so that [__init__] runs.) *)
Theorem keyword_not_a_handle (t : TensorReference) (more : list pyvalue)
        (pre post : list (string * pyvalue)) (k : string) (v : pyvalue)
        (op : Op) (c : nat) :
  accepts_keywords init_parameters (pre ++ (k, v) :: post) = true ->
  forallb is_tensor more = true ->
  (forall k' v', In (k', v') pre -> k' <> "name" -> is_tensor v' = true) ->
  k <> "name" ->
  is_tensor v = false ->
  OperatorInstance_init (PyTensor t :: more) op (pre ++ (k, v) :: post) c
  = (inl (TypeError
            ("Expected inputs of type" ++ nl ++ spaces 28
               ++ "TensorReference. Received" ++ nl ++ spaces 28
               ++ "input type TensorReference")), S c).
Proof.
  intros K H P N T. rewrite (OperatorInstance_init_bound _ _ _ _ K). f_equal.
  unfold OperatorInstance_fill, classify_inputs.
  destruct (add_inputs_handles (PyTensor t :: more) (op_spec op) None)
    as (inp' & E & _); [exact H |].
  pose proof (add_inputs_binds_handle _ _ _ _ E ltac:(discriminate)) as B.
  destruct B as (t' & B). simpl in B. subst inp'.
  rewrite E. simpl rbind.
  rewrite add_argument_inputs_rejects by assumption. reflexivity.
Qed.

End MoreArgumentInputs.

(** ** The further statements at concrete inputs *)

Section MoreInstances.

Import Examples.

Lemma mask_keyword_is_handle :
  forall k v, In (k, v) [("mask", a2)] -> k <> "name" -> is_tensor v = true.
Proof. intros k v [[= <- <-] | []] _. reflexivity. Defined.


Lemma handles_recorded_in_order_witness :
  forallb is_tensor [a1; b1] = true /\
  accepts_keywords init_parameters [("mask", a2)] = true /\
  exists inst,
    OperatorInstance_init [a1; b1] op_cpu [("mask", a2)] 0 = (inr inst, 1) /\
    inputs (inst_spec inst) = [("a1", "cpu"); ("b1", "cpu")] /\
    argument_inputs (inst_spec inst) = [("mask", "a2")] /\
    inst_inputs inst = [a1; b1; a2].
Proof.
  split; [reflexivity |]. split; [reflexivity |].
  destruct (handles_recorded_in_order [a1; b1] op_cpu [("mask", a2)] 0
              eq_refl eq_refl mask_keyword_is_handle)
    as (inst & F & I & _ & A & Ii & _).
  exists inst. split; [exact F |]. split; [exact I |].
  split; [exact A | exact Ii].
Defined.

Lemma later_input_not_a_handle_witness :
  accepts_keywords init_parameters (@nil (string * pyvalue)) = true /\
  forallb is_tensor [b1] = true /\
  is_tensor (PyInt 3) = false /\
  OperatorInstance_init [a1; b1; PyInt 3; a2] op_cpu [] 5
  = (inl (TypeError (msg_expected_tensor 28 "int")), 6).
Proof.
  split; [reflexivity | split; [reflexivity | split; [reflexivity |]]].
  exact (later_input_not_a_handle (h "a1") [b1] [a2] (PyInt 3) op_cpu [] 5
           eq_refl eq_refl eq_refl).
Defined.


Lemma input_set_length_checked_witness :
  accepts_keywords init_parameters (@nil (string * pyvalue)) = true /\
  [a1; a2] <> [] /\
  forallb is_handle_list [PyList [a1; a2]] = true /\
  List.length [b1] <> List.length [a1; a2] /\
  OperatorInstance_init [PyList [a1; a2]; PyList [b1]] op_cpu [] 5
  = (inl (RuntimeError (msg_same_length 2 1)), 6).
Proof.
  split; [reflexivity |].
  split; [discriminate |]. split; [reflexivity |].
  split; [simpl; lia |].
  exact (input_set_length_checked [a1; a2] [b1] [] [] op_cpu [] 5
           eq_refl ltac:(discriminate) eq_refl eq_refl ltac:(simpl; lia)).
Defined.

Lemma input_set_not_a_list_witness :
  accepts_keywords init_parameters (@nil (string * pyvalue)) = true /\
  [a1] <> [] /\
  forallb is_handle_list [PyList [a1]] = true /\
  is_list b1 = false /\
  OperatorInstance_init [PyList [a1]; b1] op_cpu [] 5
  = (inl (TypeError (msg_expected_list "TensorReference")), 6).
Proof.
  split; [reflexivity |].
  split; [discriminate |]. split; [reflexivity |]. split; [reflexivity |].
  exact (input_set_not_a_list [a1] b1 [] [] op_cpu [] 5
           eq_refl ltac:(discriminate) eq_refl eq_refl eq_refl).
Defined.

Lemma input_set_element_not_a_handle_witness :
  accepts_keywords init_parameters (@nil (string * pyvalue)) = true /\
  forallb (fun v => is_list v && Nat.eqb (list_length v) 2)
          [PyList [a1; PyInt 7]] = true /\
  In (PyInt 7) [a1; PyInt 7] /\
  is_tensor (PyInt 7) = false /\
  exists x,
    is_tensor x = false /\
    OperatorInstance_init [PyList [a1; PyInt 7]] op_cpu [] 5
    = (inl (TypeError (msg_expected_tensor 32 (type_name x))), 6).
Proof.
  split; [reflexivity |].
  split; [reflexivity |]. split; [simpl; auto |]. split; [reflexivity |].
  destruct (input_set_element_not_a_handle [a1; PyInt 7] [] op_cpu [] 5
              eq_refl eq_refl)
    as (x & l & T & _ & _ & E).
  { exists [a1; PyInt 7], (PyInt 7). simpl. auto. }
  exists x. split; [exact T | exact E].
Defined.

Lemma construction_raises_witness :
  OperatorInstance_fill 0 [] op_cpu [("x", PyInt 5)]
  = inl (UnboundLocalError "inp") /\
  ((exists m, UnboundLocalError "inp" = TypeError m) \/
   (exists m l0 rest,
       UnboundLocalError "inp" = RuntimeError m /\
       @nil pyvalue = PyList l0 :: rest /\ l0 <> []) \/
   (UnboundLocalError "inp" = UnboundLocalError "inp" /\
    (@nil pyvalue = [] \/ exists rest, @nil pyvalue = PyList [] :: rest))).
Proof.
  split; [reflexivity |].
  exact (construction_raises 0 [] op_cpu [("x", PyInt 5)] _ eq_refl).
Defined.

Lemma construction_accepts_witness :
  exists inst,
    OperatorInstance_fill 0 [a1] op_cpu [("mask", a2)] = inr inst /\
    is_tensor a2 = true /\
    argument_inputs (inst_spec inst) = [("mask", "a2")] /\
    inst_inputs inst = [a1; a2].
Proof.
  eexists. split; [reflexivity |].
  destruct (construction_accepts 0 [a1] op_cpu [("mask", a2)] _ eq_refl)
    as (K & A & I & _).
  split; [apply (K "mask"); [simpl; auto | discriminate] |].
  split; [exact A | exact I].
Defined.

Lemma default_names_differ_witness :
  exists i1 i2,
    OperatorInstance_fill 0 [] op_cpu [] = inr i1 /\
    OperatorInstance_fill 1 [] op_cpu [] = inr i2 /\
    dict_get "name" (@nil (string * pyvalue)) = None /\
    inst_name i1 <> inst_name i2.
Proof.
  eexists _, _. split; [reflexivity |]. split; [reflexivity |].
  split; [reflexivity |].
  intros E.
  destruct (proj1 (default_names_differ 0 1 [] [] op_cpu op_cpu [] [] _ _
                     eq_refl eq_refl) eq_refl eq_refl E) as [H _].
  discriminate H.
Defined.

Lemma call_return_convention_witness :
  (0 <= Z.of_nat (List.length [a1]) <= 2)%Z /\
  accepts_keywords init_parameters (@nil (string * pyvalue)) = true /\
  (exists inst,
     OperatorInstance_fill 5 [a1] op_mixed [] = inr inst /\
     CalculateOutputs (op_schema op_mixed) (inst_spec inst) = inr 1%Z) /\
  Operator_call op_mixed [a1] [] 5
  = (inr (PyTensor (mkTensorReference "Decode_id_5_output_0" "gpu" 5)), 6) /\
  Operator_call op_cpu [a1] [] 5
  = (inr (PyList
            [PyTensor (mkTensorReference "Resize_id_5_output_0" "cpu" 5);
             PyTensor (mkTensorReference "Resize_id_5_output_1" "cpu" 5)]),
     6).
Proof.
  split; [simpl; lia |].
  split; [reflexivity |].
  split; [eexists; split; reflexivity |].
  split.
  - exact (proj1 (call_return_convention op_mixed [a1] [] 5 _ 1
                    ltac:(simpl; lia) eq_refl eq_refl eq_refl) eq_refl).
  - exact (proj1 (proj2 (call_return_convention op_cpu [a1] [] 5 _ 2
                           ltac:(simpl; lia) eq_refl eq_refl eq_refl))
                 ltac:(discriminate)).
Defined.

Lemma built_instance_outputs_witness :
  exists g,
    run_call (CallOperator op_cpu [a1] []) 5 = (inr g, 6) /\
    inst_id g = 5 /\
    outputs (inst_spec g)
    = map (fun t => (name t, device t)) (inst_outputs g).
Proof.
  eexists. split; [reflexivity |].
  destruct (built_instance_outputs (CallOperator op_cpu [a1] []) 5 6 _
              eq_refl) as (_ & I & _ & O & _).
  split; [exact I | exact O].
Defined.

Lemma source_identifies_instance_witness :
  exists g g',
    nth_error (fst (call_session [CallOperator op_cpu [] [];
                                  CallReader reader0 [] []] 0)) 0
    = Some (inr g) /\
    nth_error (fst (call_session [CallOperator op_cpu [] [];
                                  CallReader reader0 [] []] 0)) 1
    = Some (inr g') /\
    inst_id g < inst_id g'.
Proof.
  eexists _, _. split; [reflexivity |]. split; [reflexivity |].
  apply (proj1 (source_identifies_instance
                  [CallOperator op_cpu [] []; CallReader reader0 [] []]
                  0 0 1 _ _ eq_refl eq_refl)).
  lia.
Defined.

Lemma operator_init_result_witness :
  empty_registry "Resize" = inl (BackendError "unknown operator") /\
  Operator_init empty_registry "Resize" "cpu" [("size", PyList [])]
  = inl (BackendError "unknown operator") /\
  is_dict [("device", PyStr "gpu")] /\
  exists op,
    Operator_init registry "Resize" "cpu" [("device", PyStr "gpu")] = inr op /\
    op_type_name op = "Resize" /\
    dict_get "device" (args (op_spec op)) = Some (op_device op).
Proof.
  assert (D : is_dict [("device", PyStr "gpu")])
    by (unfold is_dict; simpl; constructor; [simpl; tauto | constructor]).
  split; [reflexivity |].
  split.
  { exact (proj1 (operator_init_result empty_registry "Resize" "cpu"
                    [("size", PyList [])]) _ eq_refl). }
  split; [exact D |].
  eexists. split; [reflexivity |].
  destruct (proj2 (operator_init_result registry "Resize" "cpu"
                     [("device", PyStr "gpu")]) _ eq_refl)
    as (N & _ & _ & _ & _ & _ & G).
  split; [exact N | exact (G D)].
Defined.

Lemma operator_init_arguments_witness :
  is_dict [("size", PyInt 3)] /\
  dict_get "device" [("size", PyInt 3)] = None /\
  exists op,
    Operator_init registry "Resize" "cpu" [("size", PyInt 3)] = inr op /\
    args (op_spec op) = [("device", PyStr "cpu"); ("size", PyInt 3)].
Proof.
  assert (D : is_dict [("size", PyInt 3)])
    by (unfold is_dict; simpl; constructor; [simpl; tauto | constructor]).
  split; [exact D |]. split; [reflexivity |].
  eexists. split; [reflexivity |].
  exact (proj1 (operator_init_arguments registry "Resize" "cpu"
                  [("size", PyInt 3)] _ D eq_refl) eq_refl).
Defined.

Lemma call_output_device_witness :
  exists op g,
    Operator_init registry "Copy" "support" [] = inr op /\
    Operator_call_instance op [] [] 0 = (inr g, 1) /\
    List.length (inst_outputs g) = 2 /\
    forall t, In t (inst_outputs g) -> device t = "cpu".
Proof.
  eexists _, _. split; [reflexivity |]. split; [reflexivity |].
  split; [reflexivity |].
  intros t I.
  apply (proj2 (call_output_device registry "Copy" "support" [] _ [] []
                  0 1 _ eq_refl eq_refl t I)); discriminate.
Defined.

Lemma reader_init_result_witness :
  accepts_keywords reader_parameters [("shards", PyList [])] = true /\
  registry "_TFRecordReader" = inr (schema_n 2) /\
  (exists r,
     TFRecordReader_init registry (PyStr "train.rec")
       (PyList [PyStr "train.idx"]) [] [("shards", PyList [])] = inr r /\
     tfr_path r = PyList [PyStr "train.rec"] /\
     tfr_index_path r = PyList [PyStr "train.idx"] /\
     args (tfr_spec r)
     = [("path", PyList [PyStr "train.rec"]);
        ("index_path", PyList [PyStr "train.idx"]);
        ("shards", PyList [])]) /\
  accepts_keywords reader_parameters [("path", PyStr "other.rec")] = false /\
  exists m,
    TFRecordReader_init registry (PyStr "train.rec")
      (PyList [PyStr "train.idx"]) [] [("path", PyStr "other.rec")]
    = inl (TypeError m).
Proof.
  split; [reflexivity |]. split; [reflexivity |]. split.
  - destruct (proj2 (proj2 (reader_init_result registry (PyStr "train.rec")
                              (PyList [PyStr "train.idx"]) []
                              [("shards", PyList [])]) eq_refl)
                    _ eq_refl)
      as (r & E & _ & _ & _ & _ & _ & _ & _ & P & I & _ & A).
    exists r. split; [exact E |].
    rewrite <- (P eq_refl), <- (I eq_refl).
    split; [reflexivity | split; [reflexivity |]].
    apply A.
    unfold is_dict; simpl; constructor; [simpl; tauto | constructor].
  - split; [reflexivity |].
    exact (proj1 (reader_init_result registry (PyStr "train.rec")
                    (PyList [PyStr "train.idx"]) []
                    [("path", PyStr "other.rec")]) eq_refl).
Defined.

Lemma reader_call_features_witness :
  (MinNumInput (tfr_schema reader0) <= Z.of_nat (List.length (@nil pyvalue))
   <= MaxNumInput (tfr_schema reader0))%Z /\
  accepts_keywords init_parameters (@nil (string * pyvalue)) = true /\
  is_dict (tfr_features reader0) /\
  exists inst inst',
    OperatorInstance_fill 3 [] (reader_op reader0) [] = inr inst /\
    TFRecordReader_call_instance reader0 [] [] 3
    = (inr ([("image",
              mkTensorReference "_TFRecordReader_id_3_output_0" "cpu" 3);
             ("label",
              mkTensorReference "_TFRecordReader_id_3_output_1" "cpu" 3)],
            inst'), 4) /\
    dict_get "path" (args (inst_spec inst'))
    = Some (PyList [PyStr "train.rec"]).
Proof.
  assert (D : is_dict (tfr_features reader0)).
  { unfold is_dict; simpl. constructor.
    - simpl. intros [H | []]. discriminate H.
    - constructor; [simpl; tauto | constructor]. }
  split; [simpl; lia |]. split; [reflexivity |]. split; [exact D |].
  destruct (reader_call_features reader0 [] [] 3 _
              ltac:(simpl; lia) eq_refl eq_refl D)
    as (inst' & E & _ & _ & _ & _ & _ & _ & K).
  eexists _, inst'. split; [reflexivity |]. split; [exact E |].
  rewrite K by discriminate. reflexivity.
Defined.

Lemma reader_arity_check_witness :
  (2 < Z.of_nat (List.length [a1; a2; b1]))%Z /\
  TFRecordReader_call reader0 [a1; a2; b1] [] 3
  = (inl (ValueError (msg_arity 16 "TFRecordReader" 0 2 3)), 3).
Proof.
  split; [simpl; lia |].
  apply (reader_arity_check reader0 [a1; a2; b1] [] 3). right. simpl. lia.
Defined.

Lemma keyword_not_a_handle_witness :
  accepts_keywords init_parameters [("mask", a2); ("size", PyInt 5)] = true /\
  forallb is_tensor [b1] = true /\
  "size" <> "name" /\
  is_tensor (PyInt 5) = false /\
  OperatorInstance_init [a1; b1] op_cpu [("mask", a2); ("size", PyInt 5)] 5
  = (inl (TypeError (msg_expected_tensor 28 "TensorReference")), 6).
Proof.
  split; [reflexivity |].
  split; [reflexivity |]. split; [discriminate |]. split; [reflexivity |].
  exact (keyword_not_a_handle (h "a1") [b1] [("mask", a2)] [] "size"
           (PyInt 5) op_cpu 5 eq_refl eq_refl mask_keyword_is_handle
           ltac:(discriminate) eq_refl).
Defined.

End MoreInstances.
